(** * Painel de vendas PE: the load / classify / filter / aggregate pipeline

    A shallow embedding of [thales_vendas.py].  The script is a Streamlit page:
    it is run from top to bottom on every interaction, keeps one flag in the
    session state, reads two secrets, builds a pandas table and renders it.

    Conventions of the embedding:
    - a cell of the table is a Python object: a number, the float NaN that
      pandas puts where a value is missing, or a string;
    - numbers are exact rationals ([Q]); the literals [1.1] and [0.9] of the
      script are the rationals 11/10 and 9/10, rounding is not modelled;
    - a Python exception is a value of [exn]; code that can raise returns a
      [result];
    - a row of the table is a dictionary from column names to cells
      ([gmap string value]); the table keeps its column names next to its rows,
      as a frame with columns and no rows differs from a frame with no column
      (the order of the columns only matters to the display and is not kept);
    - [json.loads] and the Streamlit widgets are library code: the first is
      represented by what it returns on the stored text, the second by the
      elements written to the page ([ui]);
    - [st.cache_data] only saves recomputing [load_data], a function of the
      secrets alone, and is left out. *)

From Stdlib Require Import QArith Lqa Ascii.
From stdpp Require Import gmap strings list fin_maps pretty sorting.

Open Scope Q_scope.
Open Scope string_scope.

(** ** Python objects, exceptions *)

Inductive value :=
  | Num (q : Q)
  | NaN
  | Str (s : string).

Inductive exn :=
  | KeyError (key : string)
  | TypeError
  | JSONDecodeError.

Inductive result (A : Type) :=
  | Ok (a : A)
  | Raise (e : exn).
Arguments Ok {A} a.
Arguments Raise {A} e.

#[global] Instance result_ret : MRet result := λ A a, Ok a.
#[global] Instance result_bind : MBind result := λ A B k m,
  match m with
  | Ok a => k a
  | Raise e => Raise e
  end.

(** ** Operators on cells, as Python evaluates them *)

(** [a + b]: floats add and NaN absorbs, strings concatenate, a string and a
    float do not add. *)
Definition py_add (a b : value) : result value :=
  match a, b with
  | Num x, Num y => Ok (Num (x + y))
  | Num _, NaN | NaN, Num _ | NaN, NaN => Ok NaN
  | Str s, Str t => Ok (Str (s ++ t))
  | _, _ => Raise TypeError
  end.

(** [a / c] and [a * c] for a numeric literal [c] of the script. *)
Definition py_truediv (a : value) (c : Q) : result value :=
  match a with
  | Num x => Ok (Num (x / c))
  | NaN => Ok NaN
  | Str _ => Raise TypeError
  end.

Definition py_mul (a : value) (c : Q) : result value :=
  match a with
  | Num x => Ok (Num (x * c))
  | NaN => Ok NaN
  | Str _ => Raise TypeError
  end.

(** [a == c] for a numeric literal: never raises, NaN and strings differ from
    every number. *)
Definition py_eq_num (a : value) (c : Q) : bool :=
  match a with
  | Num x => Qeq_bool x c
  | _ => false
  end.

(** [a < b]: every comparison with NaN is false; a string is only ordered
    against a string. *)
Definition Qlt_bool (x y : Q) : bool := negb (Qle_bool y x).

Definition py_lt (a b : value) : result bool :=
  match a, b with
  | Num x, Num y => Ok (Qlt_bool x y)
  | Num _, NaN | NaN, Num _ | NaN, NaN => Ok false
  | Str s, Str t => Ok (String.ltb s t)
  | _, _ => Raise TypeError
  end.

Definition py_gt (a b : value) : result bool := py_lt b a.

(** Equality of cells as the hash tables of pandas see it ([unique], [isin]):
    NaN is equal to NaN there. *)
Definition value_eqb (a b : value) : bool :=
  match a, b with
  | Num x, Num y => Qeq_bool x y
  | NaN, NaN => true
  | Str s, Str t => String.eqb s t
  | _, _ => false
  end.

(** ** Rows and frames *)

Abbreviation row := (gmap string value).

(** [r[c]] on a row: a missing label is a [KeyError]. *)
Definition row_get (r : row) (c : string) : result value :=
  match r !! c with
  | Some v => Ok v
  | None => Raise (KeyError c)
  end.

(** ** The business rule (lines 48-56) *)

Definition get_status (r : row) : result value :=
  nov ← row_get r "NOV";
  if py_eq_num nov 0 then Ok (Str "Sem Venda")
  else
    media ← row_get r "Media_Trimestre_Ant";
    hi ← py_mul media 1.1;
    above ← py_gt nov hi;
    if (above : bool) then Ok (Str "Crescimento")
    else
      media' ← row_get r "Media_Trimestre_Ant";
      lo ← py_mul media' 0.9;
      below ← py_lt nov lo;
      if (below : bool) then Ok (Str "Queda")
      else Ok (Str "Estável").

(** ** Frames *)

Record DataFrame := mkDataFrame {
  columns : gset string;
  rows : list row
}.

(** [df[c]]: the cells of column [c], a [KeyError] when the frame has no such
    column. *)
Definition getitem (df : DataFrame) (c : string) : result (list value) :=
  if decide (c ∈ columns df) then mapM (λ r, row_get r c) (rows df)
  else Raise (KeyError c).

(** [df[c] = s]: the column is added (or replaced), row by row. *)
Definition setitem (df : DataFrame) (c : string) (s : list value) : DataFrame :=
  {| columns := columns df ∪ {[c]};
     rows := zip_with (λ r v, <[c:=v]> r) (rows df) s |}.

(** [s + t] and [s / c] on columns, cell by cell. *)
Definition series_add (s t : list value) : result (list value) :=
  mapM (λ ab, py_add ab.1 ab.2) (zip s t).

Definition series_truediv (s : list value) (c : Q) : result (list value) :=
  mapM (λ a, py_truediv a c) s.

(** [df.apply(f, axis=1)]. *)
Definition df_apply (f : row → result value) (df : DataFrame) : result (list value) :=
  mapM f (rows df).

(** [df.empty]: no row or no column. *)
Definition df_empty (df : DataFrame) : bool :=
  bool_decide (rows df = []) || bool_decide (columns df = ∅).

(** ** The stored data *)

(** A field of a JSON object of the payload: a number or a string.  The other
    JSON values (null, booleans, nested arrays and objects) are outside this
    input type. *)
Inductive json :=
  | JNumber (q : Q)
  | JString (s : string).

(** The text kept under [DADOS_VENDAS], by what [json.loads] makes of it:
    text that is not JSON, or the encoding of an array of objects. *)
Inductive payload :=
  | Malformed
  | Records (data : list (gmap string json)).

Definition json_loads (p : payload) : result (list (gmap string json)) :=
  match p with
  | Malformed => Raise JSONDecodeError
  | Records data => Ok data
  end.

Record Secrets := mkSecrets {
  SENHA_ACESSO : string;
  DADOS_VENDAS : option payload
}.

(** [st.secrets[key]] *)
Definition secrets_get {A} (field : option A) (key : string) : result A :=
  match field with
  | Some a => Ok a
  | None => Raise (KeyError key)
  end.

(** [pd.DataFrame(data)] for a list of dictionaries: the columns are the keys
    met in the dictionaries; a key that a dictionary lacks gives NaN. *)
Definition of_json (j : json) : value :=
  match j with
  | JNumber q => Num q
  | JString s => Str s
  end.

Definition reindex (cols : gset string) (d : gmap string json) : row :=
  (of_json <$> d) ∪ gset_to_gmap NaN cols.

Definition pd_DataFrame (data : list (gmap string json)) : DataFrame :=
  let cols := ⋃ (dom <$> data) in
  {| columns := cols; rows := reindex cols <$> data |}.

(** ** What the script writes to the page *)

(** A chart is kept as the arguments given to the plotting library, and a
    metric as the number it shows: formatting belongs to the libraries. *)
Record figure := mkFigure {
  fig_data : DataFrame;
  fig_x : string;
  fig_y : string;
  fig_title : option string;
  fig_colors : list string
}.

Inductive ui :=
  | st_title (s : string)
  | st_markdown (s : string)
  | st_subheader (s : string)
  | st_text_input (label : string)
  | st_error (msg : string) (cause : option exn)
  | st_warning (msg : string)
  | st_sidebar_header (s : string)
  | st_sidebar_multiselect (label : string) (options : list value)
  | st_metric (label : string) (v : Q)
  | st_columns (n : nat)
  | st_divider
  | st_tabs (labels : list string)
  | st_plotly_chart (fig : figure)
  | st_dataframe (table : DataFrame) (styles : list string).

(** ** load_data (lines 35-62) *)

Definition load_data_try (sec : Secrets) : result DataFrame :=
  dados_json ← secrets_get (DADOS_VENDAS sec) "DADOS_VENDAS";
  data ← json_loads dados_json;
  let df := pd_DataFrame data in
  ago ← getitem df "AGO";
  set ← getitem df "SET";
  s1 ← series_add ago set;
  out ← getitem df "OUT";
  s2 ← series_add s1 out;
  media ← series_truediv s2 3;
  let df := setitem df "Media_Trimestre_Ant" media in
  status ← df_apply get_status df;
  Ok (setitem df "Status" status).

Definition load_data (sec : Secrets) : DataFrame * list ui :=
  match load_data_try sec with
  | Ok df => (df, [])
  | Raise e => (pd_DataFrame [], [st_error "Erro ao processar dados: " (Some e)])
  end.


(** ** Library functions the page uses *)

(** [Series.unique()]: the distinct cells, in order of first appearance. *)
Fixpoint unique (s : list value) : list value :=
  match s with
  | [] => []
  | x :: s' => x :: filter (λ y, ¬ value_eqb x y) (unique s')
  end.

(** [sorted(l)]: insertion with [<], the only comparison [sorted] uses.  On
    cells that are all strings, or all numbers, the outcome is that of any
    stable sort, and a list that mixes strings and floats raises whatever the
    algorithm.  With NaN among numbers the order depends on the algorithm;
    the model gives the order of this insertion. *)
Fixpoint insort (x : value) (l : list value) : result (list value) :=
  match l with
  | [] => Ok [x]
  | y :: l' =>
      b ← py_lt y x;
      if (b : bool) then l'' ← insort x l'; Ok (y :: l'') else Ok (x :: y :: l')
  end.

Fixpoint sorted (l : list value) : result (list value) :=
  match l with
  | [] => Ok []
  | x :: l' => l'' ← sorted l'; insort x l''
  end.

(** [Series.isin(values)], [mask1 & mask2] and [df[mask]]. *)
Definition isin (s : list value) (values : list value) : list bool :=
  (λ v, existsb (value_eqb v) values) <$> s.

Definition mask_and (m1 m2 : list bool) : list bool := zip_with andb m1 m2.

Definition boolean_index (df : DataFrame) (mask : list bool) : DataFrame :=
  {| columns := columns df;
     rows := fst <$> filter (λ rb, Is_true rb.2) (zip (rows df) mask) |}.

(** [Series.sum()]: NaN cells are skipped, the sum of no cell is 0.  The page
    only sums columns of a loaded frame, where no cell is a string. *)
Fixpoint sum_from (acc : Q) (s : list value) : result Q :=
  match s with
  | [] => Ok acc
  | Num x :: s' => sum_from (acc + x) s'
  | NaN :: s' => sum_from acc s'
  | Str _ :: _ => Raise TypeError
  end.

Definition series_sum (s : list value) : result Q := sum_from 0 s.

(** [df.sort_values(c, ascending=True)]: ascending, NaN last; rows with equal
    keys keep their order here. *)
Definition sorts_before (a b : value) : result bool :=
  match a, b with
  | NaN, _ => Ok false
  | _, NaN => Ok true
  | _, _ => py_lt a b
  end.

Fixpoint insort_row (c : string) (x : row) (l : list row) : result (list row) :=
  match l with
  | [] => Ok [x]
  | y :: l' =>
      ky ← row_get y c;
      kx ← row_get x c;
      b ← sorts_before ky kx;
      if (b : bool) then l'' ← insort_row c x l'; Ok (y :: l'') else Ok (x :: y :: l')
  end.

Fixpoint sort_rows (c : string) (l : list row) : result (list row) :=
  match l with
  | [] => Ok []
  | x :: l' => l'' ← sort_rows c l'; insort_row c x l''
  end.

Definition sort_values (df : DataFrame) (c : string) : result DataFrame :=
  if decide (c ∈ columns df) then
    l ← sort_rows c (rows df); Ok {| columns := columns df; rows := l |}
  else Raise (KeyError c).

(** [df.tail(n)] *)
Definition df_tail (df : DataFrame) (n : nat) : DataFrame :=
  {| columns := columns df; rows := drop (length (rows df) - n) (rows df) |}.

(** [df[[c1, ..., cn]]] *)
Definition select (df : DataFrame) (cs : list string) : result DataFrame :=
  match filter (λ c, c ∉ columns df) cs with
  | [] => Ok {| columns := list_to_set cs;
                rows := (λ r : row, filter (λ kv, kv.1 ∈ cs) r) <$> rows df |}
  | c :: _ => Raise (KeyError c)
  end.

(** ** A run of the script

    A run writes elements to the page and ends by reaching the last line, by
    [st.stop()], or by an exception that nothing catches. *)

Inductive outcome (A : Type) :=
  | Done (a : A)
  | Stopped
  | Crashed (e : exn).
Arguments Done {A} a.
Arguments Stopped {A}.
Arguments Crashed {A} e.

Record Page (A : Type) := mkPage {
  written : list ui;
  ending : outcome A
}.
Arguments mkPage {A} written ending.
Arguments written {A} p.
Arguments ending {A} p.

#[global] Instance page_ret : MRet Page := λ A a, mkPage [] (Done a).
#[global] Instance page_bind : MBind Page := λ A B k m,
  match ending m with
  | Done a => let rest := k a in mkPage (written m ++ written rest) (ending rest)
  | Stopped => mkPage (written m) Stopped
  | Crashed e => mkPage (written m) (Crashed e)
  end.

Definition write (u : ui) : Page unit := mkPage [u] (Done ()).
Definition write_all (us : list ui) : Page unit := mkPage us (Done ()).
Definition st_stop {A} : Page A := mkPage [] Stopped.
Definition lift {A} (m : result A) : Page A :=
  match m with
  | Ok a => mkPage [] (Done a)
  | Raise e => mkPage [] (Crashed e)
  end.

(** *** The access gate (lines 17-30) *)

Record SessionState := mkSession {
  logado : option bool;
  senha_input : string
}.

(** A session that has not run the script yet. *)
Definition new_session : SessionState := mkSession None "".

Definition verificar_senha (sec : Secrets) (ss : SessionState)
  : SessionState * list ui :=
  if String.eqb (senha_input ss) (SENHA_ACESSO sec)
  then (mkSession (Some true) (senha_input ss), [])
  else (ss, [st_error "Senha incorreta." None]).

(** Lines 17-18. *)
Definition init_logado (ss : SessionState) : SessionState :=
  match logado ss with
  | None => mkSession (Some false) (senha_input ss)
  | Some _ => ss
  end.

(** Lines 26-30. *)
Definition login_page : Page unit :=
  write (st_title "🔒 Acesso Restrito - Print Mais");;
  write (st_markdown "Este painel contém dados estratégicos.");;
  write (st_text_input "Digite a senha de acesso:");;
  st_stop.

(** *** Filters (lines 83-106) *)

(** What the viewer has picked in the two multiselect widgets; [None] is a
    widget left as it came up, which returns its default. *)
Record Widgets := mkWidgets {
  cidades_choice : option (list value);
  status_choice : option (list value)
}.

Definition selection (default : list value) (choice : option (list value))
  : list value :=
  from_option id default choice.

Definition multiselect (label : string) (options default : list value)
    (choice : option (list value)) : Page (list value) :=
  write (st_sidebar_multiselect label options);;
  mret (selection default choice).

Definition cidades_disponiveis (df_full : DataFrame) : result (list value) :=
  col ← getitem df_full "Cidade"; sorted (unique col).

Definition status_disponiveis (df_full : DataFrame) : result (list value) :=
  col ← getitem df_full "Status"; sorted (unique col).

(** Lines 103-106. *)
Definition aplicar_filtros (df_full : DataFrame) (cidades_sel status_sel : list value)
  : result DataFrame :=
  cidade ← getitem df_full "Cidade";
  status ← getitem df_full "Status";
  Ok (boolean_index df_full
        (mask_and (isin cidade cidades_sel) (isin status status_sel))).

(** *** Totals (lines 120-122) *)

Definition total_nov (df : DataFrame) : result Q :=
  col ← getitem df "NOV"; series_sum col.

Definition total_media (df : DataFrame) : result Q :=
  col ← getitem df "Media_Trimestre_Ant"; series_sum col.

Definition variacao (total_nov total_media : Q) : Q :=
  if Qlt_bool 0 total_media then ((total_nov / total_media) - 1) * 100 else 0.

(** *** Charts and table (lines 141-214) *)

Definition plot_bar (df_in : DataFrame) (col_val cor titulo : string) : result figure :=
  by_val ← sort_values df_in col_val;
  let df_sorted := df_tail by_val 15 in
  Ok {| fig_data := df_sorted; fig_x := col_val; fig_y := "Cidade";
        fig_title := Some titulo; fig_colors := [cor] |}.

(** [df[['Cidade', 'Media_Trimestre_Ant', 'NOV']].melt(id_vars='Cidade', ...)]:
    one row per city and period, the rows of the first period first. *)
Definition melt_row (periodo : string) (r : row) : result row :=
  cidade ← row_get r "Cidade";
  vendas ← row_get r periodo;
  Ok ({[ "Cidade" := cidade; "Periodo" := Str periodo; "Vendas" := vendas ]} : row).

Definition melt (df : DataFrame) : result DataFrame :=
  medias ← mapM (melt_row "Media_Trimestre_Ant") (rows df);
  novs ← mapM (melt_row "NOV") (rows df);
  Ok {| columns := {[ "Cidade"; "Periodo"; "Vendas" ]}; rows := medias ++ novs |}.

(** [Series.map(dict)]: a cell that is no key of the dictionary becomes NaN. *)
Definition series_map (d : gmap string string) (s : list value) : list value :=
  (λ v, match v with
        | Str k => from_option Str NaN (d !! k)
        | _ => NaN
        end) <$> s.

Definition comparativo (df : DataFrame) : result figure :=
  sel ← select df ["Cidade"; "Media_Trimestre_Ant"; "NOV"];
  df_comp ← melt sel;
  periodo ← getitem df_comp "Periodo";
  let df_comp := setitem df_comp "Periodo"
    (series_map {[ "Media_Trimestre_Ant" := "Média 3 Meses"; "NOV" := "Novembro" ]} periodo) in
  Ok {| fig_data := df_comp; fig_x := "Cidade"; fig_y := "Vendas";
        fig_title := None; fig_colors := ["#999999"; "#E31A1C"] |}.

Definition color_status (val : value) : string :=
  let color :=
    if value_eqb val (Str "Crescimento") then "#28a745"
    else if value_eqb val (Str "Queda") then "#dc3545"
    else if value_eqb val (Str "Sem Venda") then "#999999"
    else if value_eqb val (Str "Estável") then "#17a2b8"
    else "black" in
  "color: " ++ color ++ "; font-weight: bold;".

Definition tabela (df : DataFrame) : result ui :=
  sel ← select df ["Cidade"; "Status"; "AGO"; "SET"; "OUT"; "Media_Trimestre_Ant"; "NOV"];
  status ← getitem sel "Status";
  Ok (st_dataframe sel (color_status <$> status)).

Definition chart (fig : result figure) : Page unit :=
  f ← lift fig; write (st_plotly_chart f).

(** Lines 115-214: what is shown for a filtered frame [df] that is not empty. *)
Definition painel (df : DataFrame) : Page unit :=
  write (st_title " Painel Thales - Pernambuco");;
  write (st_markdown ("**Visão filtrada:** " ++ pretty (length (rows df))
                        ++ " cidades exibidas."));;
  write (st_columns 3);;
  t_nov ← lift (total_nov df);
  t_media ← lift (total_media df);
  write (st_metric "Total Vendas (Novembro)" t_nov);;
  write (st_metric "Média Trimestral (Ago-Out)" t_media);;
  write (st_metric "Variação (Nov vs Média)" (variacao t_nov t_media));;
  write st_divider;;
  write (st_tabs [" Agosto"; " Setembro"; " Outubro"; " Novembro";
                  " Comparativo (Média vs Nov)"]);;
  chart (plot_bar df "AGO" "#A6CEE3" "Vendas de Agosto");;
  chart (plot_bar df "SET" "#1F78B4" "Vendas de Setembro");;
  chart (plot_bar df "OUT" "#B2DF8A" "Vendas de Outubro");;
  chart (plot_bar df "NOV" "#33A02C" "Vendas de Novembro");;
  write (st_subheader "Média (Ago-Out) vs Novembro");;
  chart (comparativo df);;
  write (st_markdown "###  Dados Detalhados por Status");;
  t ← lift (tabela df);
  write t.

(** Lines 69-78. *)
Definition estilos : string :=
  "
<style>
    .stMetric {
        background-color: #f9f9f9;
        padding: 10px;
        border-radius: 5px;
        border-left: 5px solid #1F78B4;
    }
</style>
".

(** Lines 64-110, then [painel]: everything past the gate. *)
Definition dashboard (sec : Secrets) (w : Widgets) : Page unit :=
  let df_full := (load_data sec).1 in
  write_all (load_data sec).2;;
  write (st_markdown estilos);;
  write (st_sidebar_header "🔍 Filtros");;
  cidades ← lift (cidades_disponiveis df_full);
  cidades_sel ← multiselect "Selecione as Cidades:" cidades cidades (cidades_choice w);
  status ← lift (status_disponiveis df_full);
  status_sel ← multiselect "Selecione o Status:" status status (status_choice w);
  df ← lift (aplicar_filtros df_full cidades_sel status_sel);
  if df_empty df then
    write (st_warning "Nenhum dado encontrado com os filtros selecionados.");;
    st_stop
  else painel df.

(** The whole script, run on the session state [ss]. *)
Definition script (sec : Secrets) (w : Widgets) (ss : SessionState)
  : SessionState * Page unit :=
  let ss := init_logado ss in
  (ss, if bool_decide (logado ss = Some true) then dashboard sec w else login_page).

(** What the viewer does: anything that reruns the script, or a change of the
    password box, whose callback runs before the script does. *)
Inductive event :=
  | Rerun (w : Widgets)
  | SenhaInput (senha : string) (w : Widgets).

Definition interact (sec : Secrets) (ss : SessionState) (ev : event)
  : SessionState * Page unit :=
  match ev with
  | Rerun w => script sec w ss
  | SenhaInput senha w =>
      let cb := verificar_senha sec (mkSession (logado ss) senha) in
      let run := script sec w cb.1 in
      (run.1, mkPage (cb.2 ++ written run.2) (ending run.2))
  end.

Definition interactions (sec : Secrets) (ss : SessionState) (evs : list event)
  : SessionState :=
  foldl (λ ss ev, (interact sec ss ev).1) ss evs.

(** * Specification-side vocabulary

    The definitions below are not code of the script: they are the words in
    which its properties are stated. *)

(** ** Frames as pandas keeps them *)

(** Every row has a cell for every column, and for nothing else. *)
Definition wf_frame (df : DataFrame) : Prop :=
  Forall (λ r : row, dom r = columns df) (rows df).

(** The cell of row [r] in column [c]. *)
Definition cell (c : string) (r : row) : value := default NaN (r !! c).

Definition is_str (v : value) : Prop := ∃ s, v = Str s.

(** The average of the three months before November, as [load_data] computes
    it on the cells of one row. *)
Definition media_trimestre (ago set out : value) : result value :=
  s1 ← py_add ago set; s2 ← py_add s1 out; py_truediv s2 3.

(** What [load_data] establishes for every row of the frame it returns. *)
Inductive loaded_row (r : row) : Prop :=
  | LoadedRow (ago set out media status : value) :
      r !! "AGO" = Some ago →
      r !! "SET" = Some set →
      r !! "OUT" = Some out →
      media_trimestre ago set out = Ok media →
      r !! "Media_Trimestre_Ant" = Some media →
      get_status r = Ok status →
      r !! "Status" = Some status →
      loaded_row r.

(** A labeled dataset: a frame with the columns and rows of a loaded one.
    Every frame that [load_data] returns without error is one, and so is
    every selection of its rows. *)
Record labeled (df : DataFrame) : Prop := {
  labeled_wf : wf_frame df;
  labeled_columns :
    {[ "AGO"; "SET"; "OUT"; "NOV"; "Media_Trimestre_Ant"; "Status" ]} ⊆ columns df;
  labeled_rows : Forall loaded_row (rows df)
}.

(** The baseline of a row is the mean of its three earlier months. *)
Definition baseline_ok (r : row) : Prop :=
  ∀ a s o : Q,
    r !! "AGO" = Some (Num a) → r !! "SET" = Some (Num s) → r !! "OUT" = Some (Num o) →
    r !! "Media_Trimestre_Ant" = Some (Num ((a + s + o) / 3)).

(** ** The classification rule, as the specification words it *)

Inductive StatusLabel := NoSale | Growth | Decline | Stable.

(** The text that stands for each label in the [Status] column. *)
Definition label_name (l : StatusLabel) : string :=
  match l with
  | NoSale => "Sem Venda"
  | Growth => "Crescimento"
  | Decline => "Queda"
  | Stable => "Estável"
  end.

(** Four rules in priority order: a rule applies only when those before it
    do not. *)
Inductive rule (nov baseline_avg : Q) : StatusLabel → Prop :=
  | rule_1 :
      nov == 0 → rule nov baseline_avg NoSale
  | rule_2 :
      ¬ nov == 0 → baseline_avg * 1.1 < nov → rule nov baseline_avg Growth
  | rule_3 :
      ¬ nov == 0 → ¬ baseline_avg * 1.1 < nov → nov < baseline_avg * 0.9 →
      rule nov baseline_avg Decline
  | rule_4 :
      ¬ nov == 0 → ¬ baseline_avg * 1.1 < nov → ¬ nov < baseline_avg * 0.9 →
      rule nov baseline_avg Stable.

(** ** The filter criteria *)

(** [v] is one of the selected values.  Cells are compared as [isin] compares
    them; for a string cell this is membership in the list ([chosen_Str]). *)
Definition chosen (sel : list value) (v : value) : Prop :=
  Exists (λ u, value_eqb v u) sel.

#[global] Instance chosen_dec sel v : Decision (chosen sel v).
Proof. unfold chosen. apply _. Defined.

(** The records the criteria keep: entity among [entities] and status among
    [statuses]. *)
Definition keeps (entities statuses : list value) (r : row) : Prop :=
  chosen entities (cell "Cidade" r) ∧ chosen statuses (cell "Status" r).

#[global] Instance keeps_dec entities statuses r : Decision (keeps entities statuses r).
Proof. unfold keeps. apply _. Defined.

(** ** Sums over records *)

(** The amount a cell adds to a total: its number, and nothing when the cell
    holds no number (a NaN is skipped by [sum]). *)
Definition amount (v : value) : Q :=
  match v with
  | Num q => q
  | _ => 0
  end.

Fixpoint Qsum (l : list Q) : Q :=
  match l with
  | [] => 0
  | x :: l' => x + Qsum l'
  end.

(** The sum of column [c] over the records [rs]. *)
Definition sum_over (c : string) (rs : list row) : Q :=
  Qsum ((λ r, amount (cell c r)) <$> rs).

(** ** Payloads

    The schema the specification expects of a record: a city that is a
    string and four amounts that are numbers. *)
Definition conforms (d : gmap string json) : Prop :=
  (∃ s, d !! "Cidade" = Some (JString s)) ∧
  ∀ c, c ∈ ["AGO"; "SET"; "OUT"; "NOV"] → ∃ q, d !! c = Some (JNumber q).

Definition expected_schema (p : option payload) : Prop :=
  ∃ data, p = Some (Records data) ∧ Forall conforms data.

(** The failure signal of the loader: the empty frame and one error message
    that carries the cause. *)
Definition fails_as_a_whole (sec : Secrets) : Prop :=
  ∃ e, load_data sec
       = (pd_DataFrame [], [st_error "Erro ao processar dados: " (Some e)]).

(** The payloads on which the load raises: nothing stored, text that is not
    JSON, an amount column that no record has (in particular no record at
    all), an amount that is a string. *)
Inductive unreadable : option payload → Prop :=
  | unreadable_missing :
      unreadable None
  | unreadable_text :
      unreadable (Some Malformed)
  | unreadable_column (data : list (gmap string json)) (c : string) :
      c ∈ ["AGO"; "SET"; "OUT"; "NOV"] →
      (∀ d, d ∈ data → d !! c = None) →
      unreadable (Some (Records data))
  | unreadable_amount (data : list (gmap string json)) (d : gmap string json)
        (c s : string) :
      c ∈ ["AGO"; "SET"; "OUT"; "NOV"] →
      d ∈ data → d !! c = Some (JString s) →
      unreadable (Some (Records data)).

(** The payloads that load: every amount column occurs in some record and no
    amount is a string.  A record may lack a field that another one has. *)
Definition readable (data : list (gmap string json)) : Prop :=
  (∀ c, c ∈ ["AGO"; "SET"; "OUT"; "NOV"] → ∃ d, d ∈ data ∧ is_Some (d !! c)) ∧
  (∀ d c s, d ∈ data → c ∈ ["AGO"; "SET"; "OUT"; "NOV"] → d !! c ≠ Some (JString s)).

(** ** Kinds of page elements *)

Definition is_error (u : ui) : bool :=
  match u with st_error _ _ => true | _ => false end.

Definition is_warning (u : ui) : bool :=
  match u with st_warning _ => true | _ => false end.

(** The elements that show data: metrics, charts, tables. *)
Definition is_view (u : ui) : bool :=
  match u with
  | st_metric _ _ | st_plotly_chart _ | st_dataframe _ _ => true
  | _ => false
  end.

(** ** Sample data *)

Definition registro (cidade : string) (ago set out nov : Q) : gmap string json :=
  {[ "Cidade" := JString cidade; "AGO" := JNumber ago; "SET" := JNumber set;
     "OUT" := JNumber out; "NOV" := JNumber nov ]}.

Definition linha (cidade : string) (ago set out nov : Q) (status : string) : row :=
  {[ "Cidade" := Str cidade; "AGO" := Num ago; "SET" := Num set; "OUT" := Num out;
     "NOV" := Num nov; "Media_Trimestre_Ant" := Num ((ago + set + out) / 3);
     "Status" := Str status ]}.

Definition colunas : gset string :=
  {[ "Cidade"; "AGO"; "SET"; "OUT"; "NOV"; "Media_Trimestre_Ant"; "Status" ]}.

(** Five cities: the three scenarios of the specification and the two
    thresholds. *)
Definition exemplo : Secrets :=
  mkSecrets "segredo"
    (Some (Records [registro "Recife" 100 100 100 132;
                    registro "Olinda" 100 100 100 0;
                    registro "Caruaru" 0 0 0 50;
                    registro "Petrolina" 100 100 100 110;
                    registro "Garanhuns" 100 100 100 90])).

Definition exemplo_full : DataFrame :=
  {| columns := colunas;
     rows := [linha "Recife" 100 100 100 132 "Crescimento";
              linha "Olinda" 100 100 100 0 "Sem Venda";
              linha "Caruaru" 0 0 0 50 "Crescimento";
              linha "Petrolina" 100 100 100 110 "Estável";
              linha "Garanhuns" 100 100 100 90 "Estável"] |}.

(** A payload that is not JSON, and one whose second record lacks [NOV]. *)
Definition ilegivel : Secrets := mkSecrets "segredo" (Some Malformed).

Definition incompleto : Secrets :=
  mkSecrets "segredo"
    (Some (Records [registro "Recife" 100 100 100 132;
                    delete "NOV" (registro "Goiana" 90 90 90 90)])).

(** Selections of the sample: the growing records of Recife, those of
    Caruaru, both, and the first two cities with every status. *)
Definition so_recife : DataFrame :=
  {| columns := colunas; rows := [linha "Recife" 100 100 100 132 "Crescimento"] |}.

Definition so_caruaru : DataFrame :=
  {| columns := colunas; rows := [linha "Caruaru" 0 0 0 50 "Crescimento"] |}.

Definition recife_e_caruaru : DataFrame :=
  {| columns := colunas;
     rows := [linha "Recife" 100 100 100 132 "Crescimento";
              linha "Caruaru" 0 0 0 50 "Crescimento"] |}.

Definition recife_e_olinda : DataFrame :=
  {| columns := colunas;
     rows := [linha "Recife" 100 100 100 132 "Crescimento";
              linha "Olinda" 100 100 100 0 "Sem Venda"] |}.

Definition nenhuma_linha : DataFrame := {| columns := colunas; rows := [] |}.

Definition todas_cidades : list value :=
  [Str "Caruaru"; Str "Garanhuns"; Str "Olinda"; Str "Petrolina"; Str "Recife"].

Definition todos_status : list value :=
  [Str "Crescimento"; Str "Estável"; Str "Sem Venda"].

(** A viewer who has cleared the status widget. *)
Definition sem_status : Widgets := mkWidgets None (Some []).

(** A session past the gate. *)
Definition autenticado : SessionState := mkSession (Some true) "segredo".

(** ** Order of the sorted options *)

(** Neighbours in the outcome of [sorted] are in order: the second is not
    below the first. *)
Definition not_above (a b : value) : Prop := py_lt b a = Ok false.

(** The order of [sort_values] on the cells of a column: [a] may come before
    [b]; NaN comes after every number. *)
Definition key_le (a b : value) : Prop := sorts_before b a = Ok false.

Definition ordered_by (c : string) (r1 r2 : row) : Prop :=
  key_le (cell c r1) (cell c r2).

(** A row whose cell in column [c] is a number or NaN. *)
Definition has_key (c : string) (r : row) : Prop :=
  ∃ v, r !! c = Some v ∧ ¬ is_str v.

(** ** More sample data *)

(** A payload in which no record names its city, and one in which only the
    second record does not. *)
Definition sem_cidade : Secrets :=
  mkSecrets "segredo"
    (Some (Records [delete "Cidade" (registro "Recife" 100 100 100 132)])).

Definition cidade_em_falta : Secrets :=
  mkSecrets "segredo"
    (Some (Records [registro "Recife" 100 100 100 132;
                    delete "Cidade" (registro "Olinda" 100 100 100 0)])).

Definition sem_cidade_full : DataFrame :=
  {| columns := {[ "AGO"; "SET"; "OUT"; "NOV"; "Media_Trimestre_Ant"; "Status" ]};
     rows := [delete "Cidade" (linha "Recife" 100 100 100 132 "Crescimento")] |}.

Definition olinda_sem_nome : row :=
  <["Cidade" := NaN]> (linha "Olinda" 100 100 100 0 "Sem Venda").

Definition cidade_em_falta_full : DataFrame :=
  {| columns := colunas;
     rows := [linha "Recife" 100 100 100 132 "Crescimento"; olinda_sem_nome] |}.

(** The frame loaded from [incompleto]: the record of Goiana has no November
    amount. *)
Definition goiana : row := <["NOV" := NaN]> (linha "Goiana" 90 90 90 0 "Estável").

Definition incompleto_full : DataFrame :=
  {| columns := colunas;
     rows := [linha "Recife" 100 100 100 132 "Crescimento"; goiana] |}.

(** The first record of the sample with its amounts in cents. *)
Definition em_centavos : Secrets :=
  mkSecrets "segredo" (Some (Records [registro "Recife" 10000 10000 10000 13200])).

Definition em_centavos_full : DataFrame :=
  {| columns := colunas;
     rows := [linha "Recife" 10000 10000 10000 13200 "Crescimento"] |}.

(** A record of returns: every month below zero. *)
Definition devolucoes : Secrets :=
  mkSecrets "segredo" (Some (Records [registro "Recife" (-100) (-100) (-100) (-100)])).

Definition devolucoes_full : DataFrame :=
  {| columns := colunas;
     rows := [linha "Recife" (-100) (-100) (-100) (-100) "Crescimento"] |}.

(** ** Colours of the table *)

(** The colour [color_status] has for the name of each label (lines 192-199). *)
Definition label_color (l : StatusLabel) : string :=
  match l with
  | Growth => "#28a745"
  | Decline => "#dc3545"
  | NoSale => "#999999"
  | Stable => "#17a2b8"
  end.

(** ** Rows of the grouped chart *)

Definition barra (periodo : string) (cidade vendas : value) : row :=
  {[ "Cidade" := cidade; "Periodo" := Str periodo; "Vendas" := vendas ]}.

(** The bars of the grouped chart: for every record one of its baseline,
    then for every record one of its November amount. *)
Definition barras (df : DataFrame) : list row :=
  (((λ r, barra "Média 3 Meses" (cell "Cidade" r) (cell "Media_Trimestre_Ant" r))
      <$> rows df)
   ++ ((λ r, barra "Novembro" (cell "Cidade" r) (cell "NOV" r)) <$> rows df))%list.

(** ** Amounts as text (lines 125 and 128)

    [s.replace(old, new)] for texts [old] and [new] of one character each:
    every occurrence is replaced. *)
Fixpoint str_replace (old new : Ascii.ascii) (s : string) : string :=
  match s with
  | EmptyString => EmptyString
  | String c s' =>
      String (if Ascii.eqb c old then new else c) (str_replace old new s')
  end.

(** [.replace(",", "X").replace(".", ",").replace("X", ".")], which the
    script applies to an amount formatted with [:,.2f]. *)
Definition separadores (s : string) : string :=
  str_replace "X"%char "."%char
    (str_replace "."%char ","%char (str_replace ","%char "X"%char s)).

(** A comma for a full stop and a full stop for a comma. *)
Definition trocar (c : Ascii.ascii) : Ascii.ascii :=
  if Ascii.eqb c ","%char then "."%char
  else if Ascii.eqb c "."%char then ","%char
  else c.

(** A viewer who has typed a wrong password and then the right one. *)
Definition tentativas : list event :=
  [Rerun (mkWidgets None None); SenhaInput "errada" (mkWidgets None None);
   SenhaInput "segredo" (mkWidgets None None)].

(** Whether an event is an entry of the secret password. *)
#[global] Instance senha_certa_dec sec ev :
  Decision (∃ w, ev = SenhaInput (SENHA_ACESSO sec) w).
Proof.
  destruct ev as [w|senha w].
  - right. by intros [? ?].
  - destruct (decide (senha = SENHA_ACESSO sec)) as [->|Hne].
    + left. by exists w.
    + right. intros [? [= ? ?]]. done.
Defined.

(* ===================================================================== *)
(** * Properties *)
(* ===================================================================== *)

(** ** The error monad *)

Lemma bind_Ok {A B} (m : result A) (k : A → result B) (b : B) :
  m ≫= k = Ok b ↔ ∃ a, m = Ok a ∧ k a = Ok b.
Proof.
  destruct m as [a|e]; simpl; split.
  - eauto.
  - by intros (a' & [= <-] & ?).
  - discriminate.
  - by intros (a' & ? & ?).
Qed.

Lemma mapM_Ok {A B} (f : A → result B) (l : list A) (l' : list B) :
  mapM f l = Ok l' ↔ Forall2 (λ a b, f a = Ok b) l l'.
Proof.
  revert l'. induction l as [|a l IH]; intros l'; simpl.
  - split; [intros [= <-]; constructor | by inversion 1].
  - split.
    + intros (b & Hb & (bs & Hbs & [= <-])%bind_Ok)%bind_Ok.
      constructor; [done | by apply IH].
    + inversion 1 as [|? b ? bs Hb Hbs]; subst.
      apply bind_Ok. exists b. split; [done|].
      apply bind_Ok. exists bs. split; [by apply IH | done].
Qed.

Ltac inv_ok H :=
  repeat match type of H with
  | _ ≫= _ = Ok _ =>
      let a := fresh "x" in let Ha := fresh "H" a in
      apply bind_Ok in H as (a & Ha & H)
  end.

Lemma pd_DataFrame_wf data : wf_frame (pd_DataFrame data).
Proof.
  unfold wf_frame, pd_DataFrame; simpl.
  apply Forall_fmap, Forall_forall. intros d Hd. simpl.
  unfold reindex. rewrite dom_union_L, dom_fmap_L, dom_gset_to_gmap.
  assert (dom d ⊆ ⋃ (dom <$> data)); [|set_solver].
  intros c Hc. apply elem_of_union_list. exists (dom d). split; [|done].
  by apply list_elem_of_fmap_2.
Qed.

Lemma setitem_wf df c s : wf_frame df → wf_frame (setitem df c s).
Proof.
  unfold wf_frame, setitem; simpl. intros Hwf.
  apply Forall_forall. intros r (r0 & v & -> & Hr0 & _)%elem_of_zip_with.
  rewrite Forall_forall in Hwf. rewrite dom_insert_L, (Hwf r0 Hr0). set_solver.
Qed.

Lemma boolean_index_rows df mask r :
  r ∈ rows (boolean_index df mask) → r ∈ rows df.
Proof.
  unfold boolean_index; simpl.
  intros ([r' b] & -> & [_ Hin]%list_elem_of_filter)%list_elem_of_fmap.
  by apply elem_of_zip_l in Hin.
Qed.

Lemma boolean_index_wf df mask : wf_frame df → wf_frame (boolean_index df mask).
Proof.
  unfold wf_frame. rewrite !Forall_forall. intros Hwf r Hr.
  apply (Hwf r), (boolean_index_rows _ _ _ Hr).
Qed.

Lemma getitem_wf df c :
  wf_frame df → c ∈ columns df → getitem df c = Ok (cell c <$> rows df).
Proof.
  intros Hwf Hc. unfold getitem. rewrite decide_True by done.
  apply mapM_Ok, Forall2_fmap_r, Forall_Forall2_diag.
  eapply Forall_impl; [exact Hwf|]. intros r Hr; simpl.
  assert (is_Some (r !! c)) as [v Hv] by (apply elem_of_dom; by rewrite Hr).
  unfold row_get, cell. by rewrite Hv.
Qed.

Lemma getitem_Ok df c s : getitem df c = Ok s →
  c ∈ columns df ∧ Forall2 (λ r v, r !! c = Some v) (rows df) s.
Proof.
  unfold getitem. case_decide; [|done]. intros Hm%mapM_Ok. split; [done|].
  eapply Forall2_impl; [exact Hm|]. intros r v; simpl. unfold row_get.
  by destruct (r !! c); intros [=]; subst.
Qed.

Lemma get_status_insert_Status (r : row) (v : value) :
  get_status (<["Status" := v]> r) = get_status r.
Proof. unfold get_status, row_get. by rewrite !lookup_insert_ne. Qed.

Lemma load_data_try_rows sec df :
  load_data_try sec = Ok df → Forall loaded_row (rows df).
Proof.
  unfold load_data_try. intros H. inv_ok H.
  injection H as <-. simpl.
  apply getitem_Ok in Hx1 as [_ Hago], Hx2 as [_ Hset], Hx4 as [_ Hout].
  unfold series_add in Hx3, Hx5. unfold series_truediv in Hx6.
  unfold df_apply in Hx7. cbn [rows setitem] in Hx7.
  apply mapM_Ok in Hx3, Hx5, Hx6, Hx7.
  apply Forall_lookup. intros i r Hr.
  apply lookup_zip_with_Some in Hr as (r1 & st & -> & Hr1 & Hst).
  destruct (Forall2_lookup_l _ _ _ _ _ Hx7 Hr1) as (st' & Hst' & Hrule).
  assert (st' = st) as -> by congruence.
  pose proof Hr1 as Hr1'.
  apply lookup_zip_with_Some in Hr1 as (r0 & m & -> & Hr0 & Hm).
  destruct (Forall2_lookup_r _ _ _ _ _ Hx6 Hm) as (v2 & Hv2 & Hdiv).
  destruct (Forall2_lookup_r _ _ _ _ _ Hx5 Hv2) as ([v1 o] & Hv1o & Hadd2).
  apply lookup_zip_with_Some in Hv1o as (? & ? & [= <- <-] & Hv1 & Ho).
  destruct (Forall2_lookup_r _ _ _ _ _ Hx3 Hv1) as ([a s] & Has & Hadd1).
  apply lookup_zip_with_Some in Has as (? & ? & [= <- <-] & Ha & Hs).
  simpl in *.
  pose proof (Forall2_lookup_lr _ _ _ _ _ _ Hago Hr0 Ha) as HA.
  pose proof (Forall2_lookup_lr _ _ _ _ _ _ Hset Hr0 Hs) as HS.
  pose proof (Forall2_lookup_lr _ _ _ _ _ _ Hout Hr0 Ho) as HO.
  simpl in *.
  apply (LoadedRow _ a s o m st).
  - by rewrite !lookup_insert_ne.
  - by rewrite !lookup_insert_ne.
  - by rewrite !lookup_insert_ne.
  - unfold media_trimestre. rewrite Hadd1; simpl. rewrite Hadd2; simpl. done.
  - rewrite lookup_insert_ne by done. by rewrite lookup_insert_eq.
  - by rewrite get_status_insert_Status.
  - by rewrite lookup_insert_eq.
Qed.

Lemma load_data_try_wf sec df : load_data_try sec = Ok df → wf_frame df.
Proof.
  unfold load_data_try. intros H. inv_ok H. injection H as <-.
  do 2 apply setitem_wf. apply pd_DataFrame_wf.
Qed.

Lemma get_status_Ok_NOV r st : get_status r = Ok st → is_Some (r !! "NOV").
Proof.
  unfold get_status, row_get. destruct (r !! "NOV"); [eauto | discriminate].
Qed.

Lemma getitem_length df c s : getitem df c = Ok s → length s = length (rows df).
Proof. intros [_ H]%getitem_Ok. symmetry. by eapply Forall2_length. Qed.

Lemma mapM_length {A B} (f : A → result B) l l' : mapM f l = Ok l' → length l' = length l.
Proof. intros H%mapM_Ok. symmetry. by eapply Forall2_length. Qed.

Lemma load_data_try_length sec df :
  load_data_try sec = Ok df →
  ∃ data, DADOS_VENDAS sec = Some (Records data) ∧ length (rows df) = length data ∧
          "AGO" ∈ ⋃ (dom <$> data).
Proof.
  unfold load_data_try. intros H. inv_ok H. injection H as <-.
  destruct (DADOS_VENDAS sec) as [p|]; [|discriminate]. injection Hx as <-.
  destruct p as [|data]; [discriminate|]. injection Hx0 as <-.
  exists data. split; [done|].
  pose proof (getitem_Ok _ _ _ Hx1) as [Hago _].
  apply getitem_length in Hx1, Hx2, Hx4.
  apply mapM_length in Hx3, Hx5, Hx6, Hx7.
  cbn [rows setitem pd_DataFrame] in *.
  rewrite ?length_zip_with, ?length_zip, ?length_fmap in *. split; [lia | done].
Qed.

Lemma load_data_try_columns sec df :
  load_data_try sec = Ok df →
  {[ "AGO"; "SET"; "OUT"; "NOV"; "Media_Trimestre_Ant"; "Status" ]} ⊆ columns df.
Proof.
  intros H. pose proof (load_data_try_wf _ _ H) as Hwf.
  pose proof (load_data_try_rows _ _ H) as Hrows.
  pose proof (load_data_try_length _ _ H) as (data & _ & Hlen & Hne).
  assert ("NOV" ∈ columns df) as Hnov.
  { apply elem_of_union_list in Hne as (X & (d & -> & Hd)%list_elem_of_fmap & _).
    destruct data as [|d0 data]; [by apply not_elem_of_nil in Hd|].
    unfold wf_frame in Hwf.
    destruct (rows df) as [|r rs]; [discriminate|].
    apply Forall_cons_1 in Hwf as [<- _], Hrows as [Hlr _].
    destruct Hlr as [? ? ? ? ? _ _ _ _ _ Hrule _].
    by apply elem_of_dom, (get_status_Ok_NOV _ _ Hrule). }
  revert H Hnov. clear. unfold load_data_try. intros H. inv_ok H. injection H as <-.
  apply getitem_Ok in Hx1 as [Hago _], Hx2 as [Hset _], Hx4 as [Hout _].
  cbn [columns setitem]. set_solver.
Qed.

Lemma load_data_try_labeled sec df : load_data_try sec = Ok df → labeled df.
Proof.
  intros H. split; eauto using load_data_try_wf, load_data_try_columns, load_data_try_rows.
Qed.

Lemma boolean_index_labeled df mask : labeled df → labeled (boolean_index df mask).
Proof.
  intros [Hwf Hc Hr]. split; [by apply boolean_index_wf | done |].
  rewrite Forall_forall in Hr |- *. intros r Hin.
  apply Hr, (boolean_index_rows _ _ _ Hin).
Qed.

(** ** The classification rule *)

Lemma Qlt_bool_iff x y : Qlt_bool x y = true ↔ x < y.
Proof.
  unfold Qlt_bool. rewrite negb_true_iff, <- not_true_iff_false, Qle_bool_iff.
  split; [apply Qnot_le_lt | apply Qlt_not_le].
Qed.

Lemma label_name_inj l l' : label_name l = label_name l' → l = l'.
Proof. by destruct l, l'. Qed.

Lemma rule_functional nov avg l l' : rule nov avg l → rule nov avg l' → l = l'.
Proof. by destruct 1; destruct 1. Qed.

Lemma get_status_rule (r : row) (n m : Q) :
  r !! "NOV" = Some (Num n) → r !! "Media_Trimestre_Ant" = Some (Num m) →
  ∃ l, get_status r = Ok (Str (label_name l)) ∧ rule n m l.
Proof.
  intros Hn Hm. unfold get_status, row_get. rewrite Hn, Hm. simpl.
  destruct (Qeq_bool n 0) eqn:E0.
  { exists NoSale. split; [done|]. by apply rule_1, Qeq_bool_iff. }
  assert (¬ n == 0) as Hn0 by (by rewrite <- Qeq_bool_iff, E0).
  destruct (Qlt_bool (m * 1.1) n) eqn:E1; simpl.
  { exists Growth. split; [done|]. by apply rule_2, Qlt_bool_iff. }
  assert (¬ m * 1.1 < n) as Hhi by (by rewrite <- Qlt_bool_iff, E1).
  destruct (Qlt_bool n (m * 0.9)) eqn:E2; simpl.
  { exists Decline. split; [done|]. by apply rule_3, Qlt_bool_iff. }
  exists Stable. split; [done|]. apply rule_4; try done.
  by rewrite <- Qlt_bool_iff, E2.
Qed.

Lemma get_status_label (r : row) (st : value) :
  get_status r = Ok st → ∃ l, st = Str (label_name l).
Proof.
  unfold get_status. intros H. apply bind_Ok in H as (nov & _ & H).
  destruct (py_eq_num nov 0); [injection H as <-; by exists NoSale|].
  apply bind_Ok in H as (media & _ & H). apply bind_Ok in H as (hi & _ & H).
  apply bind_Ok in H as ([] & _ & H); [injection H as <-; by exists Growth|].
  apply bind_Ok in H as (media' & _ & H). apply bind_Ok in H as (lo & _ & H).
  apply bind_Ok in H as ([] & _ & H); injection H as <-;
    [by exists Decline | by exists Stable].
Qed.

Lemma media_trimestre_num (a s o : Q) :
  media_trimestre (Num a) (Num s) (Num o) = Ok (Num ((a + s + o) / 3)).
Proof. reflexivity. Qed.

Lemma loaded_row_baseline (r : row) (a s o : Q) :
  loaded_row r →
  r !! "AGO" = Some (Num a) → r !! "SET" = Some (Num s) → r !! "OUT" = Some (Num o) →
  r !! "Media_Trimestre_Ant" = Some (Num ((a + s + o) / 3)).
Proof.
  intros [ago set out media status Ha Hs Ho Havg Hm _ _] Ha' Hs' Ho'.
  rewrite Ha' in Ha. rewrite Hs' in Hs. rewrite Ho' in Ho.
  injection Ha as <-. injection Hs as <-. injection Ho as <-.
  rewrite media_trimestre_num in Havg. by injection Havg as <-.
Qed.

Lemma loaded_row_status (r : row) :
  loaded_row r → ∃ st, r !! "Status" = Some st ∧ get_status r = Ok st.
Proof. intros [? ? ? ? st]. by exists st. Qed.


(** ** The filter *)

Lemma existsb_chosen sel v : existsb (value_eqb v) sel = true ↔ chosen sel v.
Proof.
  unfold chosen. rewrite existsb_exists, Exists_exists.
  split; intros (u & Hu & Hv); exists u.
  - split; [by apply list_elem_of_In | by apply Is_true_true].
  - split; [by apply list_elem_of_In | by apply Is_true_true].
Qed.

Lemma value_eqb_Str s v : value_eqb (Str s) v = true ↔ v = Str s.
Proof.
  destruct v as [q| |t]; simpl; try (split; [discriminate | done]).
  rewrite String.eqb_eq. split; [by intros -> | by intros [= ->]].
Qed.

Lemma chosen_Str sel s : chosen sel (Str s) ↔ Str s ∈ sel.
Proof.
  unfold chosen. rewrite Exists_exists. split.
  - intros (u & Hu & Heq%Is_true_true%value_eqb_Str). by subst.
  - intros Hin. exists (Str s). split; [done|]. by apply Is_true_true, value_eqb_Str.
Qed.

Lemma mask_rows (f : row → bool) (l : list row) :
  (fst <$> filter (λ rb : row * bool, Is_true rb.2) (zip l (f <$> l)))
  = filter (λ r, Is_true (f r)) l.
Proof.
  induction l as [|r l IH]; [done|]. cbn [fmap list_fmap zip zip_with].
  destruct (f r) eqn:E.
  - rewrite !filter_cons_True; [|by rewrite E|exact I]. by rewrite fmap_cons, IH.
  - rewrite !filter_cons_False; [done|rewrite E; exact id|exact id].
Qed.

Lemma aplicar_filtros_rows df cidades_sel status_sel :
  wf_frame df → "Cidade" ∈ columns df → "Status" ∈ columns df →
  aplicar_filtros df cidades_sel status_sel
  = Ok {| columns := columns df;
          rows := filter (keeps cidades_sel status_sel) (rows df) |}.
Proof.
  intros Hwf Hc Hs. unfold aplicar_filtros.
  rewrite (getitem_wf _ _ Hwf Hc), (getitem_wf _ _ Hwf Hs). simpl.
  unfold boolean_index, mask_and, isin. do 2 f_equal.
  rewrite <- !list_fmap_compose, zip_with_fmap_l, zip_with_fmap_r, zip_with_diag.
  rewrite mask_rows. apply list_filter_iff. intros r. simpl.
  unfold keeps. rewrite andb_True, !Is_true_true, !existsb_chosen. done.
Qed.

(** *** Selecting every available value *)

Lemma value_eqb_refl v : value_eqb v v = true.
Proof. destruct v; simpl; [apply Qeq_bool_refl | done | apply String.eqb_refl]. Qed.

Lemma value_eqb_sym u v : value_eqb u v = value_eqb v u.
Proof.
  destruct u, v; simpl; try done.
  - apply eq_true_iff_eq. rewrite !Qeq_bool_iff. split; intros H; by symmetry.
  - apply String.eqb_sym.
Qed.

Lemma value_eqb_trans u v w :
  value_eqb u v = true → value_eqb v w = true → value_eqb u w = true.
Proof.
  destruct u, v, w; simpl; try done.
  - apply Qeq_bool_trans.
  - rewrite !String.eqb_eq. congruence.
Qed.

Lemma unique_complete (s : list value) (v : value) : v ∈ s → chosen (unique s) v.
Proof.
  unfold chosen. induction s as [|x s IH]; [by intros ?%not_elem_of_nil|].
  intros [->|Hin]%elem_of_cons; simpl.
  - apply Exists_cons_hd, Is_true_true, value_eqb_refl.
  - apply Exists_exists in IH as (u & Hu & Hvu%Is_true_true); [|done].
    destruct (value_eqb x u) eqn:E.
    + apply Exists_cons_hd, Is_true_true.
      apply (value_eqb_trans _ u); [done | by rewrite value_eqb_sym].
    + apply Exists_cons_tl, Exists_exists. exists u. split; [|by apply Is_true_true].
      apply list_elem_of_filter. split; [rewrite E; exact id | done].
Qed.

Lemma unique_subseteq (s : list value) : unique s ⊆ s.
Proof.
  induction s as [|x s IH]; simpl; [done|].
  intros v [->|[_ Hv]%list_elem_of_filter]%elem_of_cons; [left | right; by apply IH].
Qed.

Lemma insort_Permutation x l l' : insort x l = Ok l' → l' ≡ₚ x :: l.
Proof.
  revert l'. induction l as [|y l IH]; intros l'; simpl.
  - by intros [= <-].
  - intros (b & _ & H)%bind_Ok. destruct b.
    + apply bind_Ok in H as (l'' & Hl'' & [= <-]).
      rewrite (IH _ Hl''). apply perm_swap.
    + by injection H as <-.
Qed.

Lemma sorted_Permutation l l' : sorted l = Ok l' → l' ≡ₚ l.
Proof.
  revert l'. induction l as [|x l IH]; intros l'; simpl.
  - by intros [= <-].
  - intros (l'' & Hl'' & H)%bind_Ok.
    rewrite (insort_Permutation _ _ _ H). by rewrite (IH _ Hl'').
Qed.

Lemma insort_strings x l :
  is_str x → Forall is_str l → ∃ l', insort x l = Ok l'.
Proof.
  intros [s ->]. induction 1 as [|y l [t ->] _ [l' IH]]; simpl; [eauto|].
  destruct (String.ltb t s); [rewrite IH|]; simpl; eauto.
Qed.

Lemma sorted_strings l : Forall is_str l → ∃ l', sorted l = Ok l'.
Proof.
  induction 1 as [|x l Hx Hl [l' IH]]; simpl; [eauto|].
  rewrite IH; simpl. apply insort_strings; [done|].
  by rewrite (sorted_Permutation _ _ IH).
Qed.

Lemma unique_strings s : Forall is_str s → Forall is_str (unique s).
Proof.
  rewrite !Forall_forall. intros H v Hv. by apply H, unique_subseteq.
Qed.

Lemma sorted_unique_complete s l v :
  sorted (unique s) = Ok l → v ∈ s → chosen l v.
Proof.
  intros Hl Hv. unfold chosen. rewrite (sorted_Permutation _ _ Hl).
  by apply unique_complete.
Qed.

Lemma filter_all {A} (P : A → Prop) `{!∀ x, Decision (P x)} (l : list A) :
  Forall P l → filter P l = l.
Proof.
  induction 1 as [|x l Hx _ IH]; [done|]. by rewrite filter_cons_True, IH.
Qed.

Lemma loaded_row_Status_str (r : row) : loaded_row r → is_str (cell "Status" r).
Proof.
  intros (st & Hst & Hrule)%loaded_row_status.
  destruct (get_status_label _ _ Hrule) as [l ->].
  unfold cell. rewrite Hst. by eexists.
Qed.

Lemma identity_filter_labeled df cidades status :
  labeled df →
  cidades_disponiveis df = Ok cidades → status_disponiveis df = Ok status →
  aplicar_filtros df cidades status = Ok df.
Proof.
  intros [Hwf Hcols Hrows] Hc Hs.
  assert ("Status" ∈ columns df) as HS by set_solver.
  unfold cidades_disponiveis in Hc. apply bind_Ok in Hc as (ccol & Hccol & Hc).
  pose proof (getitem_Ok _ _ _ Hccol) as [HC _].
  rewrite (getitem_wf _ _ Hwf HC) in Hccol. injection Hccol as <-.
  unfold status_disponiveis in Hs. rewrite (getitem_wf _ _ Hwf HS) in Hs. simpl in Hs.
  rewrite aplicar_filtros_rows by done. f_equal.
  destruct df as [cols rs]. simpl in *. f_equal.
  apply filter_all, Forall_forall. intros r Hr. split.
  - apply (sorted_unique_complete _ _ _ Hc). by apply list_elem_of_fmap_2.
  - apply (sorted_unique_complete _ _ _ Hs). by apply list_elem_of_fmap_2.
Qed.

Lemma status_disponiveis_Ok df : labeled df → ∃ status, status_disponiveis df = Ok status.
Proof.
  intros [Hwf Hcols Hrows].
  assert ("Status" ∈ columns df) as HS by set_solver.
  unfold status_disponiveis. rewrite (getitem_wf _ _ Hwf HS). simpl.
  apply sorted_strings, unique_strings, Forall_fmap.
  eapply Forall_impl; [exact Hrows|]. apply loaded_row_Status_str.
Qed.

Lemma cidades_disponiveis_Ok df :
  wf_frame df → "Cidade" ∈ columns df →
  Forall (λ r, is_str (cell "Cidade" r)) (rows df) →
  ∃ cidades, cidades_disponiveis df = Ok cidades.
Proof.
  intros Hwf HC Hstr. unfold cidades_disponiveis. rewrite (getitem_wf _ _ Hwf HC). simpl.
  by apply sorted_strings, unique_strings, Forall_fmap.
Qed.

(** ** Totals *)

Lemma sum_from_numeric (s : list value) (acc : Q) :
  Forall (λ v, ¬ is_str v) s →
  ∃ t, sum_from acc s = Ok t ∧ t == acc + Qsum (amount <$> s).
Proof.
  intros Hs. revert acc.
  induction Hs as [|v s Hv _ IH]; intros acc; cbn [sum_from].
  - exists acc. split; [done|]. cbn [fmap list_fmap Qsum]. ring.
  - destruct v as [q| |t].
    + destruct (IH (acc + q)) as (t & -> & Ht). exists t. split; [done|].
      rewrite Ht, fmap_cons. cbn [Qsum amount]. ring.
    + destruct (IH acc) as (t & -> & Ht). exists t. split; [done|].
      rewrite Ht, fmap_cons. cbn [Qsum amount]. ring.
    + destruct Hv. by exists t.
Qed.

Lemma media_trimestre_not_str a s o m : media_trimestre a s o = Ok m → ¬ is_str m.
Proof.
  unfold media_trimestre. intros (s1 & _ & (s2 & _ & H)%bind_Ok)%bind_Ok.
  destruct s2; simpl in H; try injection H as <-; try done; by intros [? [=]].
Qed.

Lemma get_status_NOV_not_str (r : row) (st : value) :
  get_status r = Ok st → ¬ is_str (cell "NOV" r).
Proof.
  unfold get_status, row_get, cell. intros H [t Ht].
  destruct (r !! "NOV") as [nov|]; [|done]. simpl in Ht. subst nov. simpl in H.
  destruct (r !! "Media_Trimestre_Ant") as [[q| |u]|]; simpl in H; done.
Qed.

Lemma loaded_row_numeric (r : row) :
  loaded_row r →
  ¬ is_str (cell "NOV" r) ∧ ¬ is_str (cell "Media_Trimestre_Ant" r).
Proof.
  intros [ago set out media status _ _ _ Havg Hm Hrule _].
  split.
  - by eapply get_status_NOV_not_str.
  - unfold cell. rewrite Hm. by eapply media_trimestre_not_str.
Qed.

Lemma series_sum_column df c :
  wf_frame df → c ∈ columns df → Forall (λ r, ¬ is_str (cell c r)) (rows df) →
  ∃ t, (col ← getitem df c; series_sum col) = Ok t ∧ t == sum_over c (rows df).
Proof.
  intros Hwf Hc Hnum. rewrite (getitem_wf _ _ Hwf Hc). simpl.
  destruct (sum_from_numeric (cell c <$> rows df) 0) as (t & Ht & Heq).
  { by apply Forall_fmap. }
  exists t. split; [done|]. rewrite Heq. unfold sum_over.
  rewrite <- list_fmap_compose. unfold compose. ring.
Qed.

Lemma totals_labeled df :
  labeled df →
  ∃ tn tm, total_nov df = Ok tn ∧ total_media df = Ok tm ∧
           tn == sum_over "NOV" (rows df) ∧
           tm == sum_over "Media_Trimestre_Ant" (rows df).
Proof.
  intros [Hwf Hcols Hrows].
  destruct (series_sum_column df "NOV") as (tn & Hn & Hneq); [done|set_solver| |].
  { eapply Forall_impl; [exact Hrows|]. intros r Hr. by apply loaded_row_numeric. }
  destruct (series_sum_column df "Media_Trimestre_Ant") as (tm & Hm & Hmeq);
    [done|set_solver| |].
  { eapply Forall_impl; [exact Hrows|]. intros r Hr. by apply loaded_row_numeric. }
  by exists tn, tm.
Qed.

Lemma aplicar_filtros_labeled df_full cidades_sel status_sel df :
  labeled df_full → aplicar_filtros df_full cidades_sel status_sel = Ok df →
  labeled df ∧ rows df ⊆ rows df_full.
Proof.
  intros Hl H. unfold aplicar_filtros in H. inv_ok H. injection H as <-. split.
  - by apply boolean_index_labeled.
  - intros r. apply boolean_index_rows.
Qed.

Lemma Qsum_app l1 l2 : Qsum (l1 ++ l2) == Qsum l1 + Qsum l2.
Proof.
  induction l1 as [|x l1 IH]; cbn [app Qsum]; [ring | rewrite IH; ring].
Qed.

Lemma Qsum_Permutation l1 l2 : l1 ≡ₚ l2 → Qsum l1 == Qsum l2.
Proof.
  induction 1 as [|x l1 l2 _ IH|x y l|l1 l2 l3 _ IH1 _ IH2]; cbn [Qsum].
  - reflexivity.
  - by rewrite IH.
  - ring.
  - by rewrite IH1.
Qed.

Lemma sum_over_union c (a b u : list row) :
  u ≡ₚ a ++ b → sum_over c u == sum_over c a + sum_over c b.
Proof.
  intros Hp. unfold sum_over. rewrite <- Qsum_app, <- fmap_app.
  apply Qsum_Permutation. by rewrite Hp.
Qed.

Lemma Qlt_bool_proper x x' y y' : x == x' → y == y' → Qlt_bool x y = Qlt_bool x' y'.
Proof.
  intros Hx Hy. apply eq_true_iff_eq. rewrite !Qlt_bool_iff. by rewrite Hx, Hy.
Qed.

Lemma variacao_proper tn tn' tm tm' :
  tn == tn' → tm == tm' → variacao tn tm == variacao tn' tm'.
Proof.
  intros Hn Hm. unfold variacao. rewrite (Qlt_bool_proper 0 0 tm tm') by done.
  destruct (Qlt_bool 0 tm'); [|reflexivity]. by rewrite Hn, Hm.
Qed.

Lemma total_empty df c :
  rows df = [] → c ∈ columns df → (col ← getitem df c; series_sum col) = Ok 0.
Proof.
  intros Hr Hc. unfold getitem. rewrite decide_True by done. by rewrite Hr.
Qed.

(** ** The rows that reach the charts and the table *)

Lemma insort_row_Permutation c x l l' : insort_row c x l = Ok l' → l' ≡ₚ x :: l.
Proof.
  revert l'. induction l as [|y l IH]; intros l'; simpl.
  - by intros [= <-].
  - intros (ky & _ & (kx & _ & (b & _ & H)%bind_Ok)%bind_Ok)%bind_Ok. destruct b.
    + apply bind_Ok in H as (l'' & Hl'' & [= <-]).
      rewrite (IH _ Hl''). apply perm_swap.
    + by injection H as <-.
Qed.

Lemma sort_rows_Permutation c l l' : sort_rows c l = Ok l' → l' ≡ₚ l.
Proof.
  revert l'. induction l as [|x l IH]; intros l'; simpl.
  - by intros [= <-].
  - intros (l'' & Hl'' & H)%bind_Ok.
    rewrite (insort_row_Permutation _ _ _ _ H). by rewrite (IH _ Hl'').
Qed.

Lemma plot_bar_rows df col_val cor titulo fig :
  plot_bar df col_val cor titulo = Ok fig → rows (fig_data fig) ⊆ rows df.
Proof.
  unfold plot_bar. intros (by_val & Hs & [= <-])%bind_Ok. simpl.
  unfold sort_values in Hs. case_decide; [|done].
  apply bind_Ok in Hs as (l & Hl & [= <-]). simpl.
  etrans; [apply subseteq_drop|]. by rewrite (sort_rows_Permutation _ _ _ Hl).
Qed.

Lemma select_rows df cs sel :
  select df cs = Ok sel →
  Forall2 (λ r r' : row, ∀ c, c ∈ cs → r' !! c = r !! c) (rows df) (rows sel).
Proof.
  unfold select. destruct (filter _ cs); [|done]. intros [= <-]. simpl.
  apply Forall2_fmap_r, Forall_Forall2_diag, Forall_forall. intros r _ c Hc.
  destruct (r !! c) as [v|] eqn:E.
  - by apply map_lookup_filter_Some.
  - apply map_lookup_filter_None. left. done.
Qed.

Lemma tabela_rows df t styles :
  tabela df = Ok (st_dataframe t styles) →
  Forall2 (λ r r' : row, ∀ c,
             c ∈ ["Cidade"; "Status"; "AGO"; "SET"; "OUT"; "Media_Trimestre_Ant"; "NOV"] →
             r' !! c = r !! c) (rows df) (rows t).
Proof.
  unfold tabela. intros (sel & Hsel & (status & _ & [= <- _])%bind_Ok)%bind_Ok.
  by apply select_rows.
Qed.

Lemma tabela_baseline df t styles :
  tabela df = Ok (st_dataframe t styles) →
  Forall baseline_ok (rows df) → Forall baseline_ok (rows t).
Proof.
  intros H%tabela_rows Hb. rewrite Forall_forall in Hb.
  apply Forall_forall. intros r' Hr'.
  apply list_elem_of_lookup in Hr' as [i Hi].
  destruct (Forall2_lookup_r _ _ _ _ _ H Hi) as (r & Hr & Hsame).
  assert (r ∈ rows df) as Hin by (apply list_elem_of_lookup; eauto).
  intros a s o. rewrite !Hsame by set_solver. by apply Hb.
Qed.

(** ** Runs of the page *)

Lemma load_data_Ok sec df : load_data_try sec = Ok df → load_data sec = (df, []).
Proof. unfold load_data. by intros ->. Qed.

Lemma load_data_Raise sec e :
  load_data_try sec = Raise e →
  load_data sec = (pd_DataFrame [], [st_error "Erro ao processar dados: " (Some e)]).
Proof. unfold load_data. by intros ->. Qed.

Lemma cidades_disponiveis_no_frame :
  cidades_disponiveis (pd_DataFrame []) = Raise (KeyError "Cidade").
Proof. reflexivity. Qed.

Lemma dashboard_load_failure sec w e :
  load_data_try sec = Raise e →
  dashboard sec w
  = mkPage [st_error "Erro ao processar dados: " (Some e);
            st_markdown estilos; st_sidebar_header "🔍 Filtros"]
           (Crashed (KeyError "Cidade")).
Proof.
  intros H. unfold dashboard. rewrite (load_data_Raise _ _ H).
  cbn [fst snd]. rewrite cidades_disponiveis_no_frame. reflexivity.
Qed.

Lemma dashboard_empty_result sec w df_full cidades status df :
  load_data_try sec = Ok df_full →
  cidades_disponiveis df_full = Ok cidades →
  status_disponiveis df_full = Ok status →
  aplicar_filtros df_full (selection cidades (cidades_choice w))
                          (selection status (status_choice w)) = Ok df →
  df_empty df = true →
  dashboard sec w
  = mkPage [st_markdown estilos; st_sidebar_header "🔍 Filtros";
            st_sidebar_multiselect "Selecione as Cidades:" cidades;
            st_sidebar_multiselect "Selecione o Status:" status;
            st_warning "Nenhum dado encontrado com os filtros selecionados."]
           Stopped.
Proof.
  intros Hload Hc Hs Hf He. unfold dashboard. rewrite (load_data_Ok _ _ Hload).
  cbn [fst snd]. rewrite Hc, Hs.
  unfold multiselect, write_all, write, lift, mbind, page_bind, mret, page_ret.
  cbn [ending written app]. rewrite Hf. cbn [ending written app]. rewrite He.
  reflexivity.
Qed.

Lemma melt_row_Vendas periodo (r m : row) :
  melt_row periodo r = Ok m → m !! "Vendas" = r !! periodo.
Proof.
  unfold melt_row, row_get. destruct (r !! "Cidade") as [c|]; [|done]. simpl.
  destruct (r !! periodo) as [v|]; [|done]. simpl. by intros [= <-].
Qed.

Lemma comparativo_baseline df fig :
  comparativo df = Ok fig →
  Forall2 (λ r r' : row, r' !! "Vendas" = r !! "Media_Trimestre_Ant")
          (rows df) (take (length (rows df)) (rows (fig_data fig))).
Proof.
  unfold comparativo. intros H. inv_ok H. injection H as <-.
  cbn [fig_data rows setitem].
  pose proof (select_rows _ _ _ Hx) as Hsel.
  unfold melt in Hx0. inv_ok Hx0. injection Hx0 as <-.
  apply getitem_length in Hx1. cbn [rows] in Hx1.
  pose proof (mapM_length _ _ _ Hx2) as Hlen2.
  pose proof (mapM_length _ _ _ Hx3) as Hlen3.
  pose proof (Forall2_length _ _ _ Hsel) as Hlen.
  apply mapM_Ok in Hx2.
  apply Forall2_same_length_lookup_2.
  - rewrite length_take, length_zip_with. unfold series_map.
    rewrite length_fmap, Hx1. cbn [rows]. rewrite length_app. lia.
  - intros i r r' Hr Hr'.
    apply lookup_take_Some in Hr' as [Hr' Hi].
    apply lookup_zip_with_Some in Hr' as (m & p & -> & Hm & _).
    rewrite lookup_insert_ne by done.
    cbn [rows] in Hm. rewrite lookup_app_l in Hm by lia.
    destruct (Forall2_lookup_l _ _ _ _ _ Hsel Hr) as (rs & Hrs & Hsame).
    pose proof (Forall2_lookup_lr _ _ _ _ _ _ Hx2 Hrs Hm) as Hmelt. simpl in Hmelt.
    rewrite (melt_row_Vendas _ _ _ Hmelt). apply Hsame. set_solver.
Qed.

(** ** Sample runs *)

Example exemplo_loads : load_data_try exemplo = Ok exemplo_full.
Proof. vm_compute. reflexivity. Qed.

(** The scenarios of the specification: Recife grows, Olinda has no sale even
    though 0 is below the lower threshold, Caruaru grows from a zero
    baseline. *)
Example exemplo_status :
  cell "Status" <$> rows exemplo_full
  = [Str "Crescimento"; Str "Sem Venda"; Str "Crescimento"; Str "Estável"; Str "Estável"].
Proof. vm_compute. reflexivity. Qed.

(** A record without [NOV] next to a complete one does not fail the load: the
    missing amount is NaN, every comparison with it is false, and the record
    is labeled "Estável". *)
Example incompleto_loads :
  ∃ df, load_data_try incompleto = Ok df ∧
        (λ r, (cell "Cidade" r, cell "NOV" r, cell "Status" r)) <$> rows df
        = [(Str "Recife", Num 132, Str "Crescimento");
           (Str "Goiana", NaN, Str "Estável")].
Proof. eexists. split; vm_compute; reflexivity. Qed.

(** Below zero the thresholds swap sides: a November equal to 1.1 times a
    negative baseline is a fall. *)
Example negative_threshold :
  get_status (linha "X" (-100) (-100) (-100) (-110) "") = Ok (Str "Queda").
Proof. vm_compute. reflexivity. Qed.

(** ** The gate *)

Lemma init_logado_true ss : logado ss = Some true → init_logado ss = ss.
Proof. unfold init_logado. by intros ->. Qed.

Lemma verificar_senha_keeps sec ss :
  logado ss = Some true → logado (verificar_senha sec ss).1 = Some true.
Proof. unfold verificar_senha. by destruct (String.eqb _ _). Qed.

Lemma script_keeps sec w ss :
  logado ss = Some true → logado (script sec w ss).1 = Some true.
Proof. intros H. unfold script. cbn [fst]. by rewrite init_logado_true. Qed.

Lemma interact_keeps sec ss ev :
  logado ss = Some true → logado (interact sec ss ev).1 = Some true.
Proof.
  intros H. destruct ev as [w|senha w]; cbn [interact fst].
  - by apply script_keeps.
  - by apply script_keeps, verificar_senha_keeps.
Qed.

Lemma interactions_keep sec evs ss :
  logado ss = Some true → logado (interactions sec ss evs) = Some true.
Proof.
  unfold interactions. revert ss. induction evs as [|ev evs IH]; intros ss H; simpl.
  - done.
  - by apply IH, interact_keeps.
Qed.

Lemma script_gate sec w ss :
  (logado (script sec w ss).1 = Some true ∧ (script sec w ss).2 = dashboard sec w)
  ∨ (logado (script sec w ss).1 = Some false ∧ (script sec w ss).2 = login_page).
Proof.
  unfold script, init_logado. cbn [fst snd].
  destruct (logado ss) as [[]|] eqn:E; simpl; rewrite ?E; simpl; auto.
Qed.

(** [load_data] never returns part of a dataset: either every record was
    labeled, or the frame is empty and one error message was written. *)
Lemma load_data_all_or_nothing sec :
  (∃ df, load_data_try sec = Ok df ∧ load_data sec = (df, []) ∧ labeled df)
  ∨ (∃ e, load_data_try sec = Raise e ∧
          load_data sec
          = (pd_DataFrame [], [st_error "Erro ao processar dados: " (Some e)])).
Proof.
  destruct (load_data_try sec) as [df|e] eqn:E.
  - left. exists df. eauto using load_data_Ok, load_data_try_labeled.
  - right. exists e. eauto using load_data_Raise.
Qed.

(** ** Status of a loaded row *)

Lemma loaded_status_rule (r : row) (n m : Q) (l : StatusLabel) :
  loaded_row r →
  r !! "NOV" = Some (Num n) → r !! "Media_Trimestre_Ant" = Some (Num m) →
  (r !! "Status" = Some (Str (label_name l)) ↔ rule n m l).
Proof.
  intros (st & Hst & Hrule)%loaded_row_status Hn Hm.
  destruct (get_status_rule r n m Hn Hm) as (l0 & Hl0 & Hr0).
  rewrite Hl0 in Hrule. injection Hrule as <-. rewrite Hst. split.
  - intros [= ->%label_name_inj]. done.
  - intros Hl. by rewrite (rule_functional _ _ _ _ Hl Hr0).
Qed.

Lemma loaded_status_label (r : row) :
  loaded_row r → ∃ l, r !! "Status" = Some (Str (label_name l)).
Proof.
  intros (st & Hst & Hrule)%loaded_row_status.
  destruct (get_status_label _ _ Hrule) as [l ->]. by exists l.
Qed.

Lemma loaded_row_in sec df r : load_data_try sec = Ok df → r ∈ rows df → loaded_row r.
Proof.
  intros Hload Hr. pose proof (load_data_try_rows _ _ Hload) as Hrows.
  rewrite Forall_forall in Hrows. by apply Hrows.
Qed.

(** ** The cells that [load_data] takes over from the payload *)

Lemma reindex_lookup cols (d : gmap string json) c j :
  d !! c = Some j → reindex cols d !! c = Some (of_json j).
Proof.
  intros Hd. unfold reindex. apply lookup_union_Some_l. by rewrite lookup_fmap, Hd.
Qed.

Lemma load_data_try_cells sec df :
  load_data_try sec = Ok df →
  ∃ data, DADOS_VENDAS sec = Some (Records data) ∧
    columns df = ⋃ (dom <$> data) ∪ {[ "Media_Trimestre_Ant" ]} ∪ {[ "Status" ]} ∧
    Forall2 (λ (d : gmap string json) (r : row),
               ∀ c, c ≠ "Media_Trimestre_Ant" → c ≠ "Status" →
                    r !! c = reindex (⋃ (dom <$> data)) d !! c)
            data (rows df).
Proof.
  intros H. destruct (load_data_try_length _ _ H) as (data & Hdata & Hlen & _).
  exists data. split; [done|].
  revert H Hlen. unfold load_data_try. rewrite Hdata. simpl. intros H Hlen.
  inv_ok H. injection H as <-. cbn [rows columns setitem pd_DataFrame] in *.
  split; [done|].
  apply Forall2_same_length_lookup_2; [done|].
  intros i d r Hd Hr.
  apply lookup_zip_with_Some in Hr as (r1 & st & -> & Hr1 & _).
  apply lookup_zip_with_Some in Hr1 as (r0 & m & -> & Hr0 & _).
  rewrite list_lookup_fmap, Hd in Hr0. injection Hr0 as <-.
  intros c Hc1 Hc2. by rewrite !lookup_insert_ne.
Qed.

Lemma media_trimestre_args a s o m :
  media_trimestre a s o = Ok m → ¬ is_str a ∧ ¬ is_str s ∧ ¬ is_str o.
Proof.
  unfold media_trimestre. intros H.
  destruct a as [?| |?], s as [?| |?], o as [?| |?]; simpl in H; try discriminate;
    repeat split; by intros [? [=]].
Qed.

Lemma load_data_try_amounts sec df c :
  load_data_try sec = Ok df → c ∈ ["AGO"; "SET"; "OUT"; "NOV"] →
  c ∈ columns df ∧ Forall (λ r, ¬ is_str (cell c r)) (rows df).
Proof.
  intros H Hc. pose proof (load_data_try_labeled _ _ H) as [Hwf Hcols Hrows].
  split; [set_solver|].
  eapply Forall_impl; [exact Hrows|]. intros r Hr.
  destruct (loaded_row_numeric r Hr) as [Hnov _].
  destruct Hr as [ago set out media status Ha Hs Ho Havg _ _ _].
  destruct (media_trimestre_args _ _ _ _ Havg) as (Hna & Hns & Hno).
  unfold cell in *.
  repeat (apply elem_of_cons in Hc as [->|Hc]); [by rewrite Ha|by rewrite Hs|by rewrite Ho|done|].
  by apply not_elem_of_nil in Hc.
Qed.

Lemma amount_column_name c :
  c ∈ ["AGO"; "SET"; "OUT"; "NOV"] → c ≠ "Media_Trimestre_Ant" ∧ c ≠ "Status".
Proof.
  intros Hc. repeat (apply elem_of_cons in Hc as [->|Hc]); try done.
  by apply not_elem_of_nil in Hc.
Qed.

Lemma unreadable_raises sec :
  unreadable (DADOS_VENDAS sec) → ∃ e, load_data_try sec = Raise e.
Proof.
  intros Hu. destruct (load_data_try sec) as [df|e] eqn:E; [exfalso | by exists e].
  destruct (load_data_try_cells _ _ E) as (data & Hdata & Hcols & Hcells).
  rewrite Hdata in Hu.
  inversion Hu as [| |data' c Hc Hnone|data' d c s Hc Hd Hs]; subst;
    destruct (amount_column_name c Hc) as [Hc1 Hc2];
    destruct (load_data_try_amounts _ _ c E Hc) as [Hcol Hnum].
  - rewrite Hcols in Hcol.
    assert (c ∈ ⋃ (dom <$> data)) as Hin by set_solver.
    apply elem_of_union_list in Hin as (X & (d & -> & Hd)%list_elem_of_fmap & Hdom).
    apply elem_of_dom in Hdom as [j Hj]. by rewrite (Hnone d Hd) in Hj.
  - apply list_elem_of_lookup in Hd as [i Hi].
    destruct (Forall2_lookup_l _ _ _ _ _ Hcells Hi) as (r & Hr & Hsame).
    rewrite Forall_lookup in Hnum. apply (Hnum i r Hr).
    unfold cell. rewrite (Hsame c Hc1 Hc2), (reindex_lookup _ _ _ _ Hs). by exists s.
Qed.

(** ** Payloads that load *)

Lemma mapM_total {A B} (f : A → result B) (P : B → Prop) (l : list A) :
  Forall (λ a, ∃ b, f a = Ok b ∧ P b) l → ∃ l', mapM f l = Ok l' ∧ Forall P l'.
Proof.
  induction 1 as [|a l (b & Hb & HP) _ (l' & Hl' & HP')]; simpl.
  - by exists [].
  - rewrite Hb; simpl. rewrite Hl'; simpl. exists (b :: l'). by split; [|constructor].
Qed.

Lemma py_add_numeric a b :
  ¬ is_str a → ¬ is_str b → ∃ v, py_add a b = Ok v ∧ ¬ is_str v.
Proof.
  intros Ha Hb.
  destruct a as [x| |s]; [| |destruct Ha; by eexists];
    (destruct b as [y| |t]; [| |destruct Hb; by eexists]);
    simpl; eexists; (split; [done|]); by intros [? [=]].
Qed.

Lemma py_truediv_numeric a c : ¬ is_str a → ∃ v, py_truediv a c = Ok v ∧ ¬ is_str v.
Proof.
  intros Ha. destruct a as [x| |s]; [| |destruct Ha; by eexists];
    simpl; eexists; (split; [done|]); by intros [? [=]].
Qed.

Lemma series_add_numeric s t :
  Forall (λ v, ¬ is_str v) s → Forall (λ v, ¬ is_str v) t →
  ∃ u, series_add s t = Ok u ∧ Forall (λ v, ¬ is_str v) u.
Proof.
  intros Hs Ht. unfold series_add. apply mapM_total.
  apply Forall_forall. intros [a b] Hab. simpl.
  apply py_add_numeric.
  - rewrite Forall_forall in Hs. by apply Hs, (elem_of_zip_l _ _ _ _ Hab).
  - rewrite Forall_forall in Ht. by apply Ht, (elem_of_zip_r _ _ _ _ Hab).
Qed.

Lemma series_truediv_numeric s c :
  Forall (λ v, ¬ is_str v) s →
  ∃ u, series_truediv s c = Ok u ∧ Forall (λ v, ¬ is_str v) u.
Proof.
  intros Hs. unfold series_truediv. apply mapM_total.
  eapply Forall_impl; [exact Hs|]. intros a Ha. by apply py_truediv_numeric.
Qed.

Lemma get_status_total (r : row) (nov media : value) :
  r !! "NOV" = Some nov → ¬ is_str nov →
  r !! "Media_Trimestre_Ant" = Some media → ¬ is_str media →
  ∃ st, get_status r = Ok st.
Proof.
  intros Hn Hnov Hm Hmedia. unfold get_status, row_get. rewrite Hn, Hm. simpl.
  destruct nov as [n| |s]; [| |destruct Hnov; by eexists];
    (destruct media as [m| |t]; [| |destruct Hmedia; by eexists]); simpl.
  - destruct (Qeq_bool n 0); [by eexists|]. simpl.
    destruct (Qlt_bool (m * 1.1) n); [by eexists|]. simpl.
    destruct (Qlt_bool n (m * 0.9)); by eexists.
  - destruct (Qeq_bool n 0); by eexists.
  - by eexists.
  - by eexists.
Qed.

Lemma reindex_amount cols (d : gmap string json) c :
  c ∈ cols → (∀ s, d !! c ≠ Some (JString s)) →
  ∃ v, reindex cols d !! c = Some v ∧ ¬ is_str v.
Proof.
  intros Hc Hd. unfold reindex. destruct (d !! c) as [[q|s]|] eqn:E.
  - exists (Num q). split; [|by intros [? [=]]].
    apply lookup_union_Some_l. by rewrite lookup_fmap, E.
  - by destruct (Hd s).
  - exists NaN. split; [|by intros [? [=]]].
    rewrite lookup_union_r by (by rewrite lookup_fmap, E).
    by apply lookup_gset_to_gmap_Some.
Qed.

Lemma readable_column data c :
  readable data → c ∈ ["AGO"; "SET"; "OUT"; "NOV"] →
  c ∈ columns (pd_DataFrame data) ∧
  Forall (λ r : row, ∃ v, r !! c = Some v ∧ ¬ is_str v) (rows (pd_DataFrame data)).
Proof.
  intros [Hsome Hnum] Hc.
  assert (c ∈ ⋃ (dom <$> data)) as Hcol.
  { destruct (Hsome c Hc) as (d & Hd & Hdc). apply elem_of_union_list.
    exists (dom d). split; [by apply list_elem_of_fmap_2 | by apply elem_of_dom]. }
  split; [done|]. cbn [rows pd_DataFrame].
  apply Forall_fmap, Forall_forall. intros d Hd. simpl.
  apply reindex_amount; [done|]. intros s. by apply Hnum.
Qed.

Lemma getitem_numeric df c :
  c ∈ columns df →
  Forall (λ r : row, ∃ v, r !! c = Some v ∧ ¬ is_str v) (rows df) →
  ∃ s, getitem df c = Ok s ∧ Forall (λ v, ¬ is_str v) s.
Proof.
  intros Hc Hrows. unfold getitem. rewrite decide_True by done.
  apply mapM_total. eapply Forall_impl; [exact Hrows|].
  intros r (v & Hv & Hns). exists v. unfold row_get. by rewrite Hv.
Qed.

Lemma readable_loads sec data :
  DADOS_VENDAS sec = Some (Records data) → readable data →
  ∃ df, load_data_try sec = Ok df.
Proof.
  intros Hdata Hread. unfold load_data_try. rewrite Hdata. simpl.
  destruct (readable_column data "AGO" Hread) as [Ha Hra]; [set_solver|].
  destruct (readable_column data "SET" Hread) as [Hs Hrs]; [set_solver|].
  destruct (readable_column data "OUT" Hread) as [Ho Hro]; [set_solver|].
  destruct (readable_column data "NOV" Hread) as [Hn Hrn]; [set_solver|].
  destruct (getitem_numeric _ _ Ha Hra) as (ago & -> & Hago). simpl.
  destruct (getitem_numeric _ _ Hs Hrs) as (set & -> & Hset). simpl.
  destruct (series_add_numeric _ _ Hago Hset) as (s1 & -> & Hs1). simpl.
  destruct (getitem_numeric _ _ Ho Hro) as (out & -> & Hout). simpl.
  destruct (series_add_numeric _ _ Hs1 Hout) as (s2 & -> & Hs2). simpl.
  destruct (series_truediv_numeric _ 3 Hs2) as (media & -> & Hmedia). simpl.
  destruct (mapM_total get_status (λ _, True)
              (rows (setitem (pd_DataFrame data) "Media_Trimestre_Ant" media)))
    as (status & Hstatus & _).
  { apply Forall_forall. intros r (r0 & m & -> & Hr0 & Hm)%elem_of_zip_with.
    rewrite Forall_forall in Hrn. destruct (Hrn r0 Hr0) as (nov & Hnov & Hns).
    rewrite Forall_forall in Hmedia.
    destruct (get_status_total (<["Media_Trimestre_Ant" := m]> r0) nov m) as [st Hst];
      [by rewrite lookup_insert_ne | done | by rewrite lookup_insert_eq | by apply Hmedia |].
    by exists st. }
  unfold df_apply. rewrite Hstatus. simpl. by eexists.
Qed.

Lemma payload_cases (p : option payload) :
  unreadable p ∨ ∃ data, p = Some (Records data) ∧ readable data.
Proof.
  destruct p as [[|data]|]; [left; constructor| |left; constructor].
  set (amounts := ["AGO"; "SET"; "OUT"; "NOV"]).
  destruct (decide (Forall (λ c, Exists (λ d : gmap string json, is_Some (d !! c)) data)
                      amounts)) as [Hall|Hnot].
  - destruct (decide (Exists (λ d : gmap string json,
                        Exists (λ c, Is_true match d !! c with
                                             | Some (JString _) => true
                                             | _ => false
                                             end) amounts) data)) as [Hstr|Hnostr].
    + left. apply Exists_exists in Hstr as (d & Hd & Hc).
      apply Exists_exists in Hc as (c & Hc & Hdc).
      destruct (d !! c) as [[q|s]|] eqn:E; try done.
      by apply (unreadable_amount data d c s).
    + right. exists data. split; [done|]. split.
      * intros c Hc. rewrite Forall_forall in Hall.
        apply Exists_exists. by apply Hall.
      * intros d c s Hd Hc Hdc. apply Hnostr.
        apply Exists_exists. exists d. split; [done|].
        apply Exists_exists. exists c. split; [done|]. by rewrite Hdc.
  - left. apply not_Forall_Exists in Hnot; [|apply _].
    apply Exists_exists in Hnot as (c & Hc & Hnone).
    apply (unreadable_column data c Hc). intros d Hd.
    destruct (d !! c) as [j|] eqn:E; [|done].
    destruct Hnone. apply Exists_exists. exists d. by rewrite E.
Qed.

(* ===================================================================== *)
(** * Main theorems *)
(* ===================================================================== *)

(** After a failed load the run does not end on the error message: line 86
    reads the column [Cidade] of the empty frame that [load_data] returned,
    and nothing catches the [KeyError]. *)
Lemma load_failure_then_crash (w : Widgets) :
  load_data ilegivel
  = (pd_DataFrame [], [st_error "Erro ao processar dados: " (Some JSONDecodeError)])
  ∧ (script ilegivel w autenticado).2
    = mkPage [st_error "Erro ao processar dados: " (Some JSONDecodeError);
              st_markdown estilos; st_sidebar_header "🔍 Filtros"]
             (Crashed (KeyError "Cidade")).
Proof.
  split; [reflexivity|].
  unfold script. cbn [fst snd]. rewrite init_logado_true by reflexivity.
  rewrite bool_decide_eq_true_2 by reflexivity.
  by apply dashboard_load_failure.
Qed.


(** On that payload the page is rendered to its last line, metrics, charts
    and table included. *)
Example incompleto_renders :
  ending (dashboard incompleto (mkWidgets None None)) = Done () ∧
  length (filter (λ u, Is_true (is_view u))
            (written (dashboard incompleto (mkWidgets None None)))) = 9%nat.
Proof. split; vm_compute; reflexivity. Qed.









(** The filter on the sample: the two growing cities, Recife before
    Caruaru as in the dataset. *)
Example filter_sample :
  aplicar_filtros exemplo_full [Str "Caruaru"; Str "Olinda"; Str "Recife"] [Str "Crescimento"]
  = Ok recife_e_caruaru.
Proof. vm_compute. reflexivity. Qed.

(** C5. With every available city and every available status selected, the
    filter returns the dataset itself; the two lists of available values
    exist whenever the cities are strings. *)
Theorem full_selection_is_identity (sec : Secrets) (df_full : DataFrame) :
  load_data_try sec = Ok df_full →
  (∀ cidades status,
     cidades_disponiveis df_full = Ok cidades →
     status_disponiveis df_full = Ok status →
     aplicar_filtros df_full cidades status = Ok df_full) ∧
  ("Cidade" ∈ columns df_full →
   Forall (λ r, is_str (cell "Cidade" r)) (rows df_full) →
   ∃ cidades status,
     cidades_disponiveis df_full = Ok cidades ∧
     status_disponiveis df_full = Ok status).
Proof.
  intros Hl%load_data_try_labeled. split.
  - intros cidades status. by apply identity_filter_labeled.
  - intros HC Hstr.
    destruct (cidades_disponiveis_Ok df_full (labeled_wf _ Hl) HC Hstr) as [cidades Hc].
    destruct (status_disponiveis_Ok df_full Hl) as [status Hs].
    by exists cidades, status.
Qed.

Lemma full_selection_is_identity_witness :
  load_data_try exemplo = Ok exemplo_full ∧
  cidades_disponiveis exemplo_full = Ok todas_cidades ∧
  status_disponiveis exemplo_full = Ok todos_status ∧
  aplicar_filtros exemplo_full todas_cidades todos_status = Ok exemplo_full.
Proof.
  split; [vm_compute; reflexivity|].
  split; [vm_compute; reflexivity|].
  split; [vm_compute; reflexivity|].
  apply (full_selection_is_identity exemplo exemplo_full).
  - vm_compute; reflexivity.
  - vm_compute; reflexivity.
  - vm_compute; reflexivity.
Defined.



(** Over no record the summary is all zero. *)
Example totals_of_nothing :
  total_nov nenhuma_linha = Ok 0 ∧ total_media nenhuma_linha = Ok 0 ∧ variacao 0 0 = 0.
Proof. repeat split; vm_compute; reflexivity. Qed.

(** The totals of the whole sample: 382 in November against a baseline of
    400, a variation of -4.5 percent. *)
Example totals_sample :
  ∃ tn tm, total_nov exemplo_full = Ok tn ∧ total_media exemplo_full = Ok tm ∧
           tn == 382 ∧ tm == 400 ∧ variacao tn tm == -4.5.
Proof. do 2 eexists. repeat split; vm_compute; reflexivity. Qed.



(** Two sets with variations of 20 and 0 percent: together 10 percent, not
    20. *)
Example variacao_sample :
  variacao 120 100 == 20 ∧ variacao 100 100 == 0 ∧
  variacao (120 + 100) (100 + 100) == 10.
Proof. repeat split; vm_compute; reflexivity. Qed.



(** The baseline of Recife in the sample: (100 + 100 + 100) / 3 = 100. *)
Example baseline_sample :
  ∃ m, linha "Recife" 100 100 100 132 "Crescimento" !! "Media_Trimestre_Ant"
       = Some (Num m) ∧ m == 100.
Proof. eexists. split; vm_compute; reflexivity. Qed.

(** C8. When the dataset loaded and the filter keeps no record, the page
    gets the two filter widgets and one warning, then the run stops: no
    error message, no metric, no chart, no table.  A failed load is told
    apart from it: its page carries an error message and no warning. *)
Theorem empty_result_is_a_notice (sec : Secrets) (w : Widgets)
    (df_full df : DataFrame) (cidades status : list value) :
  load_data_try sec = Ok df_full →
  cidades_disponiveis df_full = Ok cidades →
  status_disponiveis df_full = Ok status →
  aplicar_filtros df_full (selection cidades (cidades_choice w))
                          (selection status (status_choice w)) = Ok df →
  df_empty df = true →
  dashboard sec w
  = mkPage [st_markdown estilos; st_sidebar_header "🔍 Filtros";
            st_sidebar_multiselect "Selecione as Cidades:" cidades;
            st_sidebar_multiselect "Selecione o Status:" status;
            st_warning "Nenhum dado encontrado com os filtros selecionados."]
           Stopped
  ∧ Exists is_warning (written (dashboard sec w))
  ∧ Forall (λ u, ¬ is_error u ∧ ¬ is_view u) (written (dashboard sec w))
  ∧ ∀ sec' w' e,
      load_data_try sec' = Raise e →
      Exists is_error (written (dashboard sec' w')) ∧
      Forall (λ u, ¬ is_warning u) (written (dashboard sec' w')).
Proof.
  intros Hload Hc Hs Hf He.
  rewrite (dashboard_empty_result _ _ _ _ _ _ Hload Hc Hs Hf He).
  split; [done|]. cbn [written]. split.
  - do 4 apply Exists_cons_tl. by apply Exists_cons_hd.
  - split.
    + repeat (apply Forall_cons; split; [split; exact id|]). apply Forall_nil_2.
    + intros sec' w' e Hfail. rewrite (dashboard_load_failure _ _ _ Hfail).
      cbn [written]. split.
      * by apply Exists_cons_hd.
      * repeat (apply Forall_cons; split; [exact id|]). apply Forall_nil_2.
Qed.

Lemma empty_result_is_a_notice_witness :
  load_data_try exemplo = Ok exemplo_full ∧
  cidades_disponiveis exemplo_full = Ok todas_cidades ∧
  status_disponiveis exemplo_full = Ok todos_status ∧
  aplicar_filtros exemplo_full todas_cidades [] = Ok nenhuma_linha ∧
  df_empty nenhuma_linha = true ∧
  dashboard exemplo sem_status
  = mkPage [st_markdown estilos; st_sidebar_header "🔍 Filtros";
            st_sidebar_multiselect "Selecione as Cidades:" todas_cidades;
            st_sidebar_multiselect "Selecione o Status:" todos_status;
            st_warning "Nenhum dado encontrado com os filtros selecionados."]
           Stopped.
Proof.
  split; [vm_compute; reflexivity|]. split; [vm_compute; reflexivity|].
  split; [vm_compute; reflexivity|]. split; [vm_compute; reflexivity|].
  split; [vm_compute; reflexivity|].
  apply (empty_result_is_a_notice exemplo sem_status exemplo_full nenhuma_linha
           todas_cidades todos_status).
  - vm_compute; reflexivity.
  - vm_compute; reflexivity.
  - vm_compute; reflexivity.
  - vm_compute; reflexivity.
  - vm_compute; reflexivity.
Defined.

(** C10. The flag is false after the first run of a new session.  The
    callback of the password box sets it exactly when the text typed equals
    the stored secret, and otherwise leaves the session as it was and writes
    an error.  Nothing the viewer does afterwards sets it back.  A run shows
    the dashboard only with the flag set: with the flag false it writes the
    login page and stops. *)
Theorem logado_gate (sec : Secrets) :
  (∀ w, logado (script sec w new_session).1 = Some false) ∧
  (∀ ss, senha_input ss = SENHA_ACESSO sec →
         verificar_senha sec ss = (mkSession (Some true) (senha_input ss), [])) ∧
  (∀ ss, senha_input ss ≠ SENHA_ACESSO sec →
         verificar_senha sec ss = (ss, [st_error "Senha incorreta." None])) ∧
  (∀ ss evs, logado ss = Some true → logado (interactions sec ss evs) = Some true) ∧
  (∀ ss w,
     (logado (script sec w ss).1 = Some true ∧ (script sec w ss).2 = dashboard sec w)
     ∨ (logado (script sec w ss).1 = Some false ∧ (script sec w ss).2 = login_page)) ∧
  ending login_page = Stopped.
Proof.
  split; [done|]. split; [|split; [|split; [|split]]].
  - intros ss Heq. unfold verificar_senha.
    by rewrite (proj2 (String.eqb_eq _ _) Heq).
  - intros ss Hne. unfold verificar_senha.
    by rewrite (proj2 (String.eqb_neq _ _) Hne).
  - intros ss evs. apply interactions_keep.
  - intros ss w. apply script_gate.
  - reflexivity.
Qed.

Lemma logado_gate_witness :
  logado autenticado = Some true ∧
  logado (interactions exemplo autenticado
            [Rerun sem_status; SenhaInput "errado" sem_status]) = Some true.
Proof.
  split; [reflexivity|].
  destruct (logado_gate exemplo) as (_ & _ & _ & Hkeep & _).
  apply Hkeep. reflexivity.
Defined.

(** A session of the sample: a first visit, a wrong password, the right one,
    then any rerun. *)
Example session_sample :
  let w := mkWidgets None None in
  logado (interactions exemplo new_session [Rerun w]) = Some false ∧
  logado (interactions exemplo new_session [Rerun w; SenhaInput "errado" w]) = Some false ∧
  logado (interactions exemplo new_session
            [Rerun w; SenhaInput "errado" w; SenhaInput "segredo" w]) = Some true ∧
  logado (interactions exemplo new_session
            [Rerun w; SenhaInput "segredo" w; Rerun w; SenhaInput "errado" w]) = Some true.
Proof. repeat split; vm_compute; reflexivity. Qed.

(* ===================================================================== *)
(** * Further properties of the script *)
(* ===================================================================== *)

(** ** The samples, evaluated *)

Lemma sem_cidade_loads : load_data_try sem_cidade = Ok sem_cidade_full.
Proof. vm_compute. reflexivity. Qed.

Lemma cidade_em_falta_loads : load_data_try cidade_em_falta = Ok cidade_em_falta_full.
Proof. vm_compute. reflexivity. Qed.

Lemma incompleto_full_loads : load_data_try incompleto = Ok incompleto_full.
Proof. vm_compute. reflexivity. Qed.

Lemma em_centavos_loads : load_data_try em_centavos = Ok em_centavos_full.
Proof. vm_compute. reflexivity. Qed.

Lemma devolucoes_loads : load_data_try devolucoes = Ok devolucoes_full.
Proof. vm_compute. reflexivity. Qed.

Lemma colunas_Cidade : "Cidade" ∈ colunas.
Proof. by vm_compute. Qed.

Lemma exemplo_cidades : cidades_disponiveis exemplo_full = Ok todas_cidades.
Proof. vm_compute. reflexivity. Qed.

Lemma exemplo_status_options : status_disponiveis exemplo_full = Ok todos_status.
Proof. vm_compute. reflexivity. Qed.

Lemma exemplo_sem_filtro :
  aplicar_filtros exemplo_full todas_cidades todos_status = Ok exemplo_full.
Proof. vm_compute. reflexivity. Qed.

Lemma exemplo_so_recife :
  aplicar_filtros exemplo_full [Str "Recife"] [Str "Crescimento"] = Ok so_recife.
Proof. vm_compute. reflexivity. Qed.

Lemma exemplo_recife_todos_status :
  aplicar_filtros exemplo_full [Str "Recife"] todos_status = Ok so_recife.
Proof. vm_compute. reflexivity. Qed.

Lemma exemplo_recife_e_caruaru :
  aplicar_filtros exemplo_full [Str "Caruaru"; Str "Recife"] [Str "Crescimento"]
  = Ok recife_e_caruaru.
Proof. vm_compute. reflexivity. Qed.

Lemma exemplo_recife_e_olinda :
  aplicar_filtros exemplo_full [Str "Recife"; Str "Olinda"] todos_status
  = Ok recife_e_olinda.
Proof. vm_compute. reflexivity. Qed.

(** ** Runs that end in an exception *)

Lemma script_logged_in sec w ss :
  logado ss = Some true → script sec w ss = (ss, dashboard sec w).
Proof.
  intros H. unfold script. rewrite (init_logado_true _ H).
  by rewrite bool_decide_eq_true_2.
Qed.



Lemma dashboard_crash_at_cidades sec w df_full e :
  load_data_try sec = Ok df_full → cidades_disponiveis df_full = Raise e →
  dashboard sec w
  = mkPage [st_markdown estilos; st_sidebar_header "🔍 Filtros"] (Crashed e).
Proof.
  intros Hload Hc. unfold dashboard. rewrite (load_data_Ok _ _ Hload).
  cbn [fst snd]. by rewrite Hc.
Qed.

(** X2. A dataset that loads but in which no record has the key [Cidade]
    ends the run at line 86 with a [KeyError], before any widget and without
    any message of the script. *)
Theorem no_city_column_crashes_run (sec : Secrets) (w : Widgets) (df_full : DataFrame) :
  load_data_try sec = Ok df_full → "Cidade" ∉ columns df_full →
  dashboard sec w
  = mkPage [st_markdown estilos; st_sidebar_header "🔍 Filtros"]
           (Crashed (KeyError "Cidade")).
Proof.
  intros Hload Hno. apply (dashboard_crash_at_cidades _ _ df_full); [done|].
  unfold cidades_disponiveis, getitem. by rewrite decide_False.
Qed.

Lemma no_city_column_crashes_run_witness :
  load_data_try sem_cidade = Ok sem_cidade_full ∧
  ("Cidade" ∉ columns sem_cidade_full) ∧
  dashboard sem_cidade sem_status
  = mkPage [st_markdown estilos; st_sidebar_header "🔍 Filtros"]
           (Crashed (KeyError "Cidade")).
Proof.
  assert ("Cidade" ∉ columns sem_cidade_full) as Hno by (vm_compute; discriminate).
  split; [exact sem_cidade_loads|]. split; [exact Hno|].
  exact (no_city_column_crashes_run sem_cidade sem_status sem_cidade_full
           sem_cidade_loads Hno).
Defined.

Lemma py_lt_Ok_kind a b c : py_lt a b = Ok c → (is_str a ↔ is_str b).
Proof.
  destruct a as [x| |s], b as [y| |t]; simpl; try discriminate; intros _;
    split; intros [? [=]]; by eexists.
Qed.

Lemma py_lt_Raise a b e : py_lt a b = Raise e → e = TypeError.
Proof. destruct a, b; simpl; congruence. Qed.

Lemma insort_Raise x l e : insort x l = Raise e → e = TypeError.
Proof.
  induction l as [|y l IH]; simpl; [done|].
  destruct (py_lt y x) as [[]|e'] eqn:E; simpl.
  - destruct (insort x l); simpl; [done|]. intros [= <-]. by apply IH.
  - done.
  - intros [= <-]. by eapply py_lt_Raise.
Qed.

Lemma sorted_Raise l e : sorted l = Raise e → e = TypeError.
Proof.
  induction l as [|x l IH]; simpl; [done|].
  destruct (sorted l) as [l'|e'] eqn:E; simpl.
  - apply insort_Raise.
  - intros [= <-]. by apply IH.
Qed.

(** [sorted] returns only on lists of one kind: all strings, or no string. *)
Lemma sorted_Ok_one_kind l l' :
  sorted l = Ok l' → Forall is_str l ∨ Forall (λ v, ¬ is_str v) l.
Proof.
  revert l'. induction l as [|x l IH]; intros l'; simpl; [by left|].
  intros (l'' & Hl'' & Hins)%bind_Ok.
  pose proof (sorted_Permutation _ _ Hl'') as Hp.
  destruct l'' as [|y l''].
  { apply Permutation_nil_l in Hp. subst l.
    destruct x as [q| |s]; [right|right|left]; repeat constructor;
      first [by intros [? [=]] | by eexists]. }
  simpl in Hins. apply bind_Ok in Hins as (b & Hb & _).
  apply py_lt_Ok_kind in Hb.
  assert (y ∈ l) as Hy by (rewrite <- Hp; left).
  destruct (IH _ Hl'') as [Hs|Hn]; [left|right]; constructor; try done.
  - apply Hb. rewrite Forall_forall in Hs. by apply Hs.
  - intros Hx%Hb. rewrite Forall_forall in Hn. by apply (Hn y).
Qed.

Lemma value_eqb_kind u v : value_eqb u v = true → (is_str u ↔ is_str v).
Proof.
  destruct u, v; simpl; try discriminate; intros _;
    split; intros [? [=]]; by eexists.
Qed.

Lemma sorted_unique_mixed (s : list value) (u v : value) :
  u ∈ s → v ∈ s → is_str u → ¬ is_str v → sorted (unique s) = Raise TypeError.
Proof.
  intros Hu Hv Hsu Hnv.
  destruct (sorted (unique s)) as [l|e] eqn:E; [exfalso|by rewrite (sorted_Raise _ _ E)].
  apply unique_complete, Exists_exists in Hu as (u' & Hu' & Heu%Is_true_true).
  apply unique_complete, Exists_exists in Hv as (v' & Hv' & Hev%Is_true_true).
  apply value_eqb_kind in Heu, Hev.
  destruct (sorted_Ok_one_kind _ _ E) as [Hs|Hn].
  - rewrite Forall_forall in Hs. apply Hnv, Hev. by apply Hs.
  - rewrite Forall_forall in Hn. apply (Hn u' Hu'). by apply Heu.
Qed.

(** X3. A dataset that loads and whose [Cidade] column holds a string next to
    a cell that is no string (a number, or the NaN of a record without the
    key) ends the run at line 86: [sorted] cannot compare the two, and the
    [TypeError] is caught by nothing. *)
Theorem mixed_cities_crash_run (sec : Secrets) (w : Widgets) (df_full : DataFrame)
    (r1 r2 : row) :
  load_data_try sec = Ok df_full → "Cidade" ∈ columns df_full →
  r1 ∈ rows df_full → r2 ∈ rows df_full →
  is_str (cell "Cidade" r1) → ¬ is_str (cell "Cidade" r2) →
  dashboard sec w
  = mkPage [st_markdown estilos; st_sidebar_header "🔍 Filtros"] (Crashed TypeError).
Proof.
  intros Hload HC Hr1 Hr2 Hs Hn.
  apply (dashboard_crash_at_cidades _ _ df_full); [done|].
  unfold cidades_disponiveis.
  rewrite (getitem_wf _ _ (load_data_try_wf _ _ Hload) HC). simpl.
  apply (sorted_unique_mixed _ (cell "Cidade" r1) (cell "Cidade" r2));
    try done; by apply list_elem_of_fmap_2.
Qed.

Lemma mixed_cities_crash_run_witness :
  load_data_try cidade_em_falta = Ok cidade_em_falta_full ∧
  ("Cidade" ∈ columns cidade_em_falta_full) ∧
  cell "Cidade" (linha "Recife" 100 100 100 132 "Crescimento") = Str "Recife" ∧
  cell "Cidade" olinda_sem_nome = NaN ∧
  dashboard cidade_em_falta sem_status
  = mkPage [st_markdown estilos; st_sidebar_header "🔍 Filtros"] (Crashed TypeError).
Proof.
  split; [exact cidade_em_falta_loads|]. split; [exact colunas_Cidade|].
  split; [reflexivity|]. split; [reflexivity|].
  apply (mixed_cities_crash_run cidade_em_falta sem_status cidade_em_falta_full
           (linha "Recife" 100 100 100 132 "Crescimento") olinda_sem_nome).
  - exact cidade_em_falta_loads.
  - exact colunas_Cidade.
  - apply list_elem_of_here.
  - apply list_elem_of_further, list_elem_of_here.
  - by exists "Recife".
  - by intros [? [=]].
Defined.

(** ** The options of the two filters (lines 86 and 95) *)

Lemma unique_NoDup (s : list value) : NoDup (unique s).
Proof.
  induction s as [|x s IH]; simpl; [constructor|].
  apply NoDup_cons. split; [|by apply NoDup_filter].
  intros [Hx _]%list_elem_of_filter. apply Hx, Is_true_true, value_eqb_refl.
Qed.

Lemma py_lt_asym a b : py_lt a b = Ok true → py_lt b a = Ok false.
Proof.
  destruct a as [x| |s], b as [y| |t]; simpl; try discriminate.
  - intros [= H%Qlt_bool_iff]. f_equal. apply not_true_iff_false.
    rewrite Qlt_bool_iff. lra.
  - intros [= H]. f_equal. unfold String.ltb in *.
    rewrite String.compare_antisym. by destruct (String.compare s t).
Qed.

Lemma insort_Sorted x l l' :
  Sorted not_above l → insort x l = Ok l' → Sorted not_above l'.
Proof.
  intros Hs. revert l'. induction Hs as [|y l Hs IH Hhd]; intros l'; simpl.
  - intros [= <-]. by repeat constructor.
  - intros (b & Hb & H)%bind_Ok. destruct b.
    + apply bind_Ok in H as (l'' & Hl'' & [= <-]).
      constructor; [by apply IH|].
      destruct l as [|z l]; simpl in Hl''.
      * injection Hl'' as <-. constructor. by apply py_lt_asym.
      * apply bind_Ok in Hl'' as (b' & Hb' & Hl'').
        destruct b'.
        -- apply bind_Ok in Hl'' as (l3 & _ & [= <-]). constructor.
           by inversion Hhd.
        -- injection Hl'' as <-. constructor. by apply py_lt_asym.
    + injection H as <-. constructor; [by constructor|]. by constructor.
Qed.

Lemma sorted_Sorted l l' : sorted l = Ok l' → Sorted not_above l'.
Proof.
  revert l'. induction l as [|x l IH]; intros l'; simpl.
  - intros [= <-]. constructor.
  - intros (l'' & Hl'' & H)%bind_Ok. eapply insort_Sorted; [|done]. by apply IH.
Qed.

Lemma Sorted_strict (l : list value) :
  NoDup l → Forall is_str l → Sorted not_above l →
  Sorted (λ a b, py_lt a b = Ok true) l.
Proof.
  intros Hnd Hstr Hs. induction Hs as [|a l Hs IH Hhd]; [constructor|].
  apply NoDup_cons in Hnd as [Ha Hnd]. apply Forall_cons in Hstr as [[s ->] Hstr].
  constructor; [by apply IH|].
  destruct Hhd as [|b l Hab]; constructor.
  apply Forall_cons in Hstr as [[t ->] _].
  unfold not_above in Hab. simpl in *. injection Hab as Hab. f_equal.
  unfold String.ltb in *. rewrite String.compare_antisym in Hab.
  destruct (String.compare s t) eqn:E; try done.
  apply String.compare_eq_iff in E. subst t. destruct Ha. left.
Qed.

(** X4. When the cities of a loaded dataset are strings, the options of the
    city filter are exactly the cities of the dataset, each once, in strictly
    ascending order. *)
Theorem city_options_sorted_distinct (sec : Secrets) (df_full : DataFrame) :
  load_data_try sec = Ok df_full → "Cidade" ∈ columns df_full →
  Forall (λ r, is_str (cell "Cidade" r)) (rows df_full) →
  ∃ cidades,
    cidades_disponiveis df_full = Ok cidades ∧
    NoDup cidades ∧
    (∀ v, v ∈ cidades ↔ ∃ r, r ∈ rows df_full ∧ cell "Cidade" r = v) ∧
    Sorted (λ a b, py_lt a b = Ok true) cidades.
Proof.
  intros Hload HC Hstr. pose proof (load_data_try_wf _ _ Hload) as Hwf.
  destruct (cidades_disponiveis_Ok df_full Hwf HC Hstr) as [cidades Hc].
  exists cidades. split; [done|].
  unfold cidades_disponiveis in Hc. rewrite (getitem_wf _ _ Hwf HC) in Hc.
  simpl in Hc. pose proof (sorted_Permutation _ _ Hc) as Hp.
  assert (NoDup cidades) as Hnd by (rewrite Hp; apply unique_NoDup).
  assert (∀ v, v ∈ cidades ↔ ∃ r, r ∈ rows df_full ∧ cell "Cidade" r = v) as Hmem.
  { intros v. rewrite Hp. split.
    - intros (r & -> & Hr)%unique_subseteq%list_elem_of_fmap. by exists r.
    - intros (r & Hr & <-).
      assert (cell "Cidade" r ∈ cell "Cidade" <$> rows df_full) as Hin
        by (by apply list_elem_of_fmap_2).
      rewrite Forall_forall in Hstr. destruct (Hstr r Hr) as [s Hs].
      rewrite Hs in Hin |- *.
      by apply chosen_Str, unique_complete. }
  repeat split; try done; try apply Hmem.
  apply Sorted_strict; [done| |by eapply sorted_Sorted].
  apply Forall_forall. intros v (r & Hr & <-)%Hmem.
  rewrite Forall_forall in Hstr. by apply Hstr.
Qed.

Lemma city_options_sorted_distinct_witness :
  load_data_try exemplo = Ok exemplo_full ∧ ("Cidade" ∈ columns exemplo_full) ∧
  Forall (λ r, is_str (cell "Cidade" r)) (rows exemplo_full) ∧
  ∃ cidades,
    cidades_disponiveis exemplo_full = Ok cidades ∧
    NoDup cidades ∧
    (∀ v, v ∈ cidades ↔ ∃ r, r ∈ rows exemplo_full ∧ cell "Cidade" r = v) ∧
    Sorted (λ a b, py_lt a b = Ok true) cidades.
Proof.
  assert (Forall (λ r, is_str (cell "Cidade" r)) (rows exemplo_full)) as Hstr.
  { repeat (apply Forall_cons; split; [by eexists|]). apply Forall_nil_2. }
  split; [exact exemplo_loads|]. split; [exact colunas_Cidade|]. split; [exact Hstr|].
  exact (city_options_sorted_distinct exemplo exemplo_full exemplo_loads
           colunas_Cidade Hstr).
Defined.

(** X5. The options of the status filter of a loaded dataset always exist:
    they are the labels that occur in the dataset, each once, so at most the
    four labels of the rule. *)
Theorem status_options_are_labels (sec : Secrets) (df_full : DataFrame) :
  load_data_try sec = Ok df_full →
  ∃ status,
    status_disponiveis df_full = Ok status ∧
    NoDup status ∧
    (∀ v, v ∈ status ↔ ∃ r, r ∈ rows df_full ∧ cell "Status" r = v) ∧
    (∀ v, v ∈ status → ∃ l, v = Str (label_name l)) ∧
    (length status <= 4)%nat.
Proof.
  intros Hload. pose proof (load_data_try_labeled _ _ Hload) as Hl.
  destruct Hl as [Hwf Hcols Hrows].
  assert ("Status" ∈ columns df_full) as HS by set_solver.
  destruct (status_disponiveis_Ok df_full) as [status Hs]; [by split|].
  exists status. split; [done|].
  unfold status_disponiveis in Hs. rewrite (getitem_wf _ _ Hwf HS) in Hs.
  simpl in Hs. pose proof (sorted_Permutation _ _ Hs) as Hp.
  assert (NoDup status) as Hnd by (rewrite Hp; apply unique_NoDup).
  assert (∀ r, r ∈ rows df_full → ∃ l, cell "Status" r = Str (label_name l)) as Hlab.
  { intros r Hr. rewrite Forall_forall in Hrows.
    destruct (loaded_status_label r (Hrows r Hr)) as [l Hl]. exists l.
    unfold cell. by rewrite Hl. }
  assert (∀ v, v ∈ status ↔ ∃ r, r ∈ rows df_full ∧ cell "Status" r = v) as Hmem.
  { intros v. rewrite Hp. split.
    - intros (r & -> & Hr)%unique_subseteq%list_elem_of_fmap. by exists r.
    - intros (r & Hr & <-).
      assert (cell "Status" r ∈ cell "Status" <$> rows df_full) as Hin
        by (by apply list_elem_of_fmap_2).
      destruct (Hlab r Hr) as [l Hs']. rewrite Hs' in Hin |- *.
      by apply chosen_Str, unique_complete. }
  assert (∀ v, v ∈ status → ∃ l, v = Str (label_name l)) as Hfour.
  { intros v (r & Hr & <-)%Hmem. by apply Hlab. }
  repeat split; try done; try apply Hmem.
  change 4%nat with (length (Str ∘ label_name <$> [NoSale; Growth; Decline; Stable])).
  apply submseteq_length, NoDup_submseteq; [done|].
  intros v [l ->]%Hfour. apply list_elem_of_fmap. exists l. split; [done|].
  destruct l; set_solver.
Qed.

Lemma status_options_are_labels_witness :
  load_data_try exemplo = Ok exemplo_full ∧
  ∃ status,
    status_disponiveis exemplo_full = Ok status ∧
    NoDup status ∧
    (∀ v, v ∈ status ↔ ∃ r, r ∈ rows exemplo_full ∧ cell "Status" r = v) ∧
    (∀ v, v ∈ status → ∃ l, v = Str (label_name l)) ∧
    (length status <= 4)%nat.
Proof.
  split; [exact exemplo_loads|].
  exact (status_options_are_labels exemplo exemplo_full exemplo_loads).
Defined.

(** ** What the loader keeps of the payload (lines 39-59) *)

(** X6. The loader neither drops, reorders nor alters records: the frame has
    one row per record of the payload, in the same order; a field of the
    record is the cell of that name, and a field the record lacks while
    another record has it is NaN.  Only the two derived columns are set by
    the loader itself. *)
Theorem load_keeps_records (sec : Secrets) (df : DataFrame)
    (data : list (gmap string json)) :
  load_data_try sec = Ok df → DADOS_VENDAS sec = Some (Records data) →
  length (rows df) = length data ∧
  ∀ i d r c,
    data !! i = Some d → rows df !! i = Some r →
    c ≠ "Media_Trimestre_Ant" → c ≠ "Status" →
    (∀ j, d !! c = Some j → r !! c = Some (of_json j)) ∧
    (d !! c = None → (∃ d', d' ∈ data ∧ is_Some (d' !! c)) → r !! c = Some NaN) ∧
    (d !! c = None → (∀ d', d' ∈ data → d' !! c = None) → r !! c = None).
Proof.
  intros Hload Hdata.
  destruct (load_data_try_cells _ _ Hload) as (data' & Hdata' & _ & Hcells).
  rewrite Hdata in Hdata'. injection Hdata' as <-.
  split; [symmetry; by eapply Forall2_length|].
  intros i d r c Hd Hr Hc1 Hc2.
  pose proof (Forall2_lookup_lr _ _ _ _ _ _ Hcells Hd Hr) as Hsame.
  rewrite (Hsame c Hc1 Hc2). split; [|split].
  - intros j Hj. by apply reindex_lookup.
  - intros Hnone (d' & Hd' & Hsome). unfold reindex.
    rewrite lookup_union_r by (by rewrite lookup_fmap, Hnone).
    apply lookup_gset_to_gmap_Some. split; [|done].
    apply elem_of_union_list. exists (dom d').
    split; [by apply list_elem_of_fmap_2 | by apply elem_of_dom].
  - intros Hnone Hall. unfold reindex.
    rewrite lookup_union_r by (by rewrite lookup_fmap, Hnone).
    apply lookup_gset_to_gmap_None.
    intros (X & (d' & -> & Hd')%list_elem_of_fmap & Hin)%elem_of_union_list.
    apply elem_of_dom in Hin as [j Hj]. by rewrite (Hall d' Hd') in Hj.
Qed.

Lemma load_keeps_records_witness :
  load_data_try incompleto = Ok incompleto_full ∧
  DADOS_VENDAS incompleto
  = Some (Records [registro "Recife" 100 100 100 132;
                   delete "NOV" (registro "Goiana" 90 90 90 90)]) ∧
  length (rows incompleto_full) = 2%nat ∧
  goiana !! "Cidade" = Some (Str "Goiana") ∧
  goiana !! "NOV" = Some NaN.
Proof.
  pose proof incompleto_full_loads as Hload.
  destruct (load_keeps_records incompleto incompleto_full _ Hload eq_refl)
    as [Hlen Hcells].
  split; [exact Hload|]. split; [reflexivity|]. split; [exact Hlen|].
  destruct (Hcells 1%nat (delete "NOV" (registro "Goiana" 90 90 90 90)) goiana "Cidade")
    as (Hsome & _); [reflexivity | reflexivity | done | done |].
  destruct (Hcells 1%nat (delete "NOV" (registro "Goiana" 90 90 90 90)) goiana "NOV")
    as (_ & Hnan & _); [reflexivity | reflexivity | done | done |].
  split.
  - apply (Hsome (JString "Goiana")). vm_compute; reflexivity.
  - apply Hnan; [vm_compute; reflexivity|].
    exists (registro "Recife" 100 100 100 132).
    split; [apply list_elem_of_here | vm_compute; by eexists].
Defined.

(** ** The label in corner cases (lines 45-56) *)

Lemma media_trimestre_NaN a s o m :
  media_trimestre a s o = Ok m → a = NaN ∨ s = NaN ∨ o = NaN → m = NaN.
Proof.
  unfold media_trimestre. intros H Hnan.
  destruct a as [?| |?], s as [?| |?], o as [?| |?]; simpl in H;
    try discriminate; try (by injection H);
    destruct Hnan as [?|[?|?]]; discriminate.
Qed.

Lemma cell_lookup (r : row) c v : r !! c = Some v → cell c r = v.
Proof. unfold cell. by intros ->. Qed.

(** X7. A record with a month missing is never seen to grow or fall.  When
    one of AGO, SET, OUT or NOV of a loaded record is NaN (the record lacked
    the field), every comparison of the rule is false: the record is labeled
    "Sem Venda" if its November amount is 0 and "Estável" otherwise. *)
Theorem missing_month_is_stable (sec : Secrets) (df : DataFrame) (r : row) :
  load_data_try sec = Ok df → r ∈ rows df →
  cell "AGO" r = NaN ∨ cell "SET" r = NaN ∨ cell "OUT" r = NaN ∨ cell "NOV" r = NaN →
  cell "Status" r
  = Str (if py_eq_num (cell "NOV" r) 0 then "Sem Venda" else "Estável").
Proof.
  intros Hload Hr Hnan. pose proof (loaded_row_in _ _ _ Hload Hr) as Hrow.
  destruct (loaded_row_numeric r Hrow) as [Hnov _].
  destruct Hrow as [ago set out media status Ha Hs Ho Havg Hm Hrule Hst].
  rewrite (cell_lookup _ _ _ Hst).
  rewrite (cell_lookup _ _ _ Ha), (cell_lookup _ _ _ Hs), (cell_lookup _ _ _ Ho) in Hnan.
  pose proof (media_trimestre_not_str _ _ _ _ Havg) as Hmedia.
  revert Hrule Hnov Hnan. unfold get_status, row_get, cell.
  rewrite Hm. destruct (r !! "NOV") as [nov|]; [|done]. simpl.
  intros Hrule Hnov Hnan.
  destruct nov as [n| |t]; [| |destruct Hnov; by eexists].
  - destruct Hnan as [H|[H|[H|H]]]; [| | |done];
      (assert (media = NaN) as -> by (eapply media_trimestre_NaN; eauto));
      simpl in *; destruct (Qeq_bool n 0); simpl in Hrule; by injection Hrule as <-.
  - simpl in *. destruct media as [m| |t]; simpl in Hrule;
      [by injection Hrule as <- | by injection Hrule as <- | done].
Qed.

Lemma missing_month_is_stable_witness :
  load_data_try incompleto = Ok incompleto_full ∧ goiana ∈ rows incompleto_full ∧
  cell "NOV" goiana = NaN ∧ cell "Status" goiana = Str "Estável".
Proof.
  split; [exact incompleto_full_loads|].
  split; [apply list_elem_of_further, list_elem_of_here|].
  split; [reflexivity|].
  apply (missing_month_is_stable incompleto incompleto_full goiana).
  - exact incompleto_full_loads.
  - apply list_elem_of_further, list_elem_of_here.
  - right; right; right. reflexivity.
Defined.

Lemma rule_Qeq n n' m m' l : n == n' → m == m' → rule n m l → rule n' m' l.
Proof.
  intros Hn Hm. destruct 1; [apply rule_1|apply rule_2|apply rule_3|apply rule_4];
    rewrite <- ?Hn, <- ?Hm; done.
Qed.

Lemma rule_scale k n m l : 0 < k → rule n m l → rule (k * n) (k * m) l.
Proof.
  intros Hk. destruct 1 as [H0|H0 H1|H0 H1 H2|H0 H1 H2].
  - apply rule_1. rewrite H0. ring.
  - apply rule_2; [nra | nra].
  - apply rule_3; nra.
  - apply rule_4; nra.
Qed.





(** ** The variation (line 122) *)

(** X10. For a positive baseline total the variation has the sign of the
    difference between the November total and the baseline total: positive
    exactly when November is above, zero exactly when they are equal; and it
    is never below -100 when the November total is not negative. *)
Theorem variacao_sign (tn tm : Q) :
  0 < tm →
  (0 < variacao tn tm ↔ tm < tn) ∧
  (variacao tn tm == 0 ↔ tn == tm) ∧
  (variacao tn tm < 0 ↔ tn < tm) ∧
  (0 <= tn → -100 <= variacao tn tm).
Proof.
  intros Hpos. unfold variacao. rewrite (proj2 (Qlt_bool_iff 0 tm) Hpos).
  assert (tn == tn / tm * tm) as Hq by (field; lra).
  set (q := tn / tm) in *. clearbody q.
  repeat split; intros; nra.
Qed.

Lemma variacao_sign_witness :
  0 < 400 ∧ (variacao 382 400 < 0 ↔ 382 < 400).
Proof.
  split; [reflexivity|].
  apply (variacao_sign 382 400). reflexivity.
Defined.

(** ** More on the filter (lines 87-110) *)

Lemma chosen_set sel sel' v :
  (∀ u, u ∈ sel ↔ u ∈ sel') → chosen sel v ↔ chosen sel' v.
Proof.
  intros Hset. unfold chosen. rewrite !Exists_exists.
  split; intros (u & Hu & Hv); exists u; (split; [by apply Hset | done]).
Qed.

Lemma isin_set s sel sel' : (∀ u, u ∈ sel ↔ u ∈ sel') → isin s sel = isin s sel'.
Proof.
  intros Hset. unfold isin. apply list_fmap_ext. intros _ v _.
  apply eq_true_iff_eq. rewrite !existsb_chosen. by apply chosen_set.
Qed.

(** X11. Only the set of selected values matters to the filter: the order in
    which the viewer picked the options, and an option given twice, change
    nothing. *)
Theorem filter_selection_is_a_set (df_full : DataFrame)
    (cidades_sel cidades_sel' status_sel status_sel' : list value) :
  (∀ v, v ∈ cidades_sel ↔ v ∈ cidades_sel') →
  (∀ v, v ∈ status_sel ↔ v ∈ status_sel') →
  aplicar_filtros df_full cidades_sel status_sel
  = aplicar_filtros df_full cidades_sel' status_sel'.
Proof.
  intros Hc Hs. unfold aplicar_filtros.
  destruct (getitem df_full "Cidade") as [cidade|e]; [|done]. simpl.
  destruct (getitem df_full "Status") as [status|e]; [|done]. simpl.
  by rewrite (isin_set _ _ _ Hc), (isin_set _ _ _ Hs).
Qed.

Lemma filter_selection_is_a_set_witness :
  aplicar_filtros exemplo_full [Str "Recife"; Str "Caruaru"] [Str "Crescimento"]
  = aplicar_filtros exemplo_full [Str "Caruaru"; Str "Recife"; Str "Caruaru"]
      [Str "Crescimento"].
Proof.
  apply (filter_selection_is_a_set exemplo_full).
  - intros v. rewrite !elem_of_cons, !elem_of_nil. tauto.
  - done.
Defined.

Lemma filter_sublist_mono {A} (P Q : A → Prop) `{!∀ x, Decision (P x)}
    `{!∀ x, Decision (Q x)} (l : list A) :
  (∀ x, P x → Q x) → filter P l `sublist_of` filter Q l.
Proof.
  intros HPQ. induction l as [|x l IH]; [done|].
  rewrite !filter_cons. destruct (decide (P x)) as [HP|HP].
  - rewrite decide_True by auto. by apply sublist_skip.
  - destruct (decide (Q x)); [by apply sublist_cons | done].
Qed.

Lemma chosen_mono sel sel' v : sel ⊆ sel' → chosen sel v → chosen sel' v.
Proof.
  intros Hsub. unfold chosen. rewrite !Exists_exists.
  intros (u & Hu & Hv). exists u. split; [by apply Hsub | done].
Qed.

(** X12. Narrowing a selection never brings in a record: the records kept
    for a selection are, in the same order, among those kept for any wider
    selection. *)
Theorem filter_is_monotone (sec : Secrets) (df_full df df' : DataFrame)
    (cidades_sel cidades_sel' status_sel status_sel' : list value) :
  load_data_try sec = Ok df_full →
  cidades_sel ⊆ cidades_sel' → status_sel ⊆ status_sel' →
  aplicar_filtros df_full cidades_sel status_sel = Ok df →
  aplicar_filtros df_full cidades_sel' status_sel' = Ok df' →
  rows df `sublist_of` rows df'.
Proof.
  intros Hload Hc Hs Hdf Hdf'.
  pose proof (load_data_try_labeled _ _ Hload) as [Hwf Hcols _].
  assert ("Cidade" ∈ columns df_full) as HC.
  { unfold aplicar_filtros in Hdf. apply bind_Ok in Hdf as (col & Hcol & _).
    by apply getitem_Ok in Hcol as [? _]. }
  assert ("Status" ∈ columns df_full) as HS by set_solver.
  rewrite aplicar_filtros_rows in Hdf, Hdf' by done.
  injection Hdf as <-. injection Hdf' as <-. cbn [rows].
  apply filter_sublist_mono. intros r [H1 H2]. split; by eapply chosen_mono.
Qed.

Lemma filter_is_monotone_witness :
  load_data_try exemplo = Ok exemplo_full ∧
  aplicar_filtros exemplo_full [Str "Recife"] [Str "Crescimento"] = Ok so_recife ∧
  aplicar_filtros exemplo_full [Str "Caruaru"; Str "Recife"] [Str "Crescimento"]
  = Ok recife_e_caruaru ∧
  rows so_recife `sublist_of` rows recife_e_caruaru.
Proof.
  split; [exact exemplo_loads|]. split; [exact exemplo_so_recife|].
  split; [exact exemplo_recife_e_caruaru|].
  apply (filter_is_monotone exemplo exemplo_full so_recife recife_e_caruaru
           [Str "Recife"] [Str "Caruaru"; Str "Recife"]
           [Str "Crescimento"] [Str "Crescimento"]).
  - exact exemplo_loads.
  - intros v. rewrite !elem_of_cons, !elem_of_nil. tauto.
  - done.
  - exact exemplo_so_recife.
  - exact exemplo_recife_e_caruaru.
Defined.

Lemma keeps_nothing cidades_sel status_sel (l : list row) :
  cidades_sel = [] ∨ status_sel = [] → filter (keeps cidades_sel status_sel) l = [].
Proof.
  intros Hnil. induction l as [|r l IH]; [done|].
  rewrite filter_cons_False; [done|].
  intros [H1 H2]. unfold chosen in *.
  destruct Hnil as [-> | ->]; [by apply Exists_nil in H1 | by apply Exists_nil in H2].
Qed.

(** X13. A viewer who clears one of the two filters always gets the notice:
    with no city selected, or no status selected, the run writes the two
    widgets and the warning, and stops before any metric, chart or table. *)
Theorem cleared_filter_gives_notice (sec : Secrets) (w : Widgets)
    (df_full : DataFrame) (cidades : list value) :
  load_data_try sec = Ok df_full →
  cidades_disponiveis df_full = Ok cidades →
  cidades_choice w = Some [] ∨ status_choice w = Some [] →
  ∃ status,
    status_disponiveis df_full = Ok status ∧
    dashboard sec w
    = mkPage [st_markdown estilos; st_sidebar_header "🔍 Filtros";
              st_sidebar_multiselect "Selecione as Cidades:" cidades;
              st_sidebar_multiselect "Selecione o Status:" status;
              st_warning "Nenhum dado encontrado com os filtros selecionados."]
             Stopped.
Proof.
  intros Hload Hc Hclear.
  pose proof (load_data_try_labeled _ _ Hload) as Hl.
  destruct (status_disponiveis_Ok df_full Hl) as [status Hs].
  exists status. split; [done|]. destruct Hl as [Hwf Hcols _].
  assert ("Cidade" ∈ columns df_full) as HC.
  { unfold cidades_disponiveis in Hc. apply bind_Ok in Hc as (col & Hcol & _).
    by apply getitem_Ok in Hcol as [? _]. }
  assert ("Status" ∈ columns df_full) as HS by set_solver.
  eapply dashboard_empty_result; try done.
  - by apply aplicar_filtros_rows.
  - unfold df_empty. cbn [rows]. rewrite keeps_nothing; [done|].
    destruct Hclear as [-> | ->]; [by left | by right].
Qed.

Lemma cleared_filter_gives_notice_witness :
  load_data_try exemplo = Ok exemplo_full ∧
  cidades_disponiveis exemplo_full = Ok todas_cidades ∧
  status_choice sem_status = Some [] ∧
  ∃ status,
    status_disponiveis exemplo_full = Ok status ∧
    dashboard exemplo sem_status
    = mkPage [st_markdown estilos; st_sidebar_header "🔍 Filtros";
              st_sidebar_multiselect "Selecione as Cidades:" todas_cidades;
              st_sidebar_multiselect "Selecione o Status:" status;
              st_warning "Nenhum dado encontrado com os filtros selecionados."]
             Stopped.
Proof.
  split; [exact exemplo_loads|]. split; [exact exemplo_cidades|].
  split; [reflexivity|].
  apply (cleared_filter_gives_notice exemplo sem_status exemplo_full todas_cidades).
  - exact exemplo_loads.
  - exact exemplo_cidades.
  - right. reflexivity.
Defined.

(** ** The bar charts (lines 141-154) *)

Lemma sorts_before_numeric a b :
  ¬ is_str a → ¬ is_str b → ∃ x, sorts_before a b = Ok x.
Proof.
  intros Ha Hb.
  destruct a as [x| |s]; [| |destruct Ha; by eexists];
    (destruct b as [y| |t]; [| |destruct Hb; by eexists]); simpl; by eexists.
Qed.

Lemma sorts_before_key_le a b : sorts_before a b = Ok true → key_le a b.
Proof.
  unfold key_le. destruct a as [x| |s], b as [y| |t]; simpl; try done.
  - intros [= H%Qlt_bool_iff]. f_equal. apply not_true_iff_false.
    rewrite Qlt_bool_iff. lra.
  - intros H. by apply (py_lt_asym (Str s) (Str t)).
Qed.

Lemma key_le_trans a b c :
  ¬ is_str a → ¬ is_str b → ¬ is_str c → key_le a b → key_le b c → key_le a c.
Proof.
  unfold key_le. intros Ha Hb Hc.
  destruct a as [x| |s]; [| |destruct Ha; by eexists];
    (destruct b as [y| |t]; [| |destruct Hb; by eexists]);
    (destruct c as [z| |u]; [| |destruct Hc; by eexists]); simpl; try done.
  intros [= H1] [= H2]. f_equal.
  apply not_true_iff_false in H1, H2. apply not_true_iff_false.
  rewrite Qlt_bool_iff in *. lra.
Qed.

Lemma insort_row_sorted c x l :
  has_key c x → Forall (has_key c) l → StronglySorted (ordered_by c) l →
  ∃ l', insort_row c x l = Ok l' ∧ StronglySorted (ordered_by c) l'.
Proof.
  intros (kx & Hkx & Hnx) Hl Hs. induction Hs as [|y l Hs IH Hy]; simpl.
  - eexists. split; [done|]. by repeat constructor.
  - apply Forall_cons in Hl as [(ky & Hky & Hny) Hl].
    unfold row_get. rewrite Hky, Hkx. simpl.
    destruct (sorts_before_numeric ky kx Hny Hnx) as [b Hb]. rewrite Hb. simpl.
    destruct b.
    + destruct (IH Hl) as (l' & Hl' & Hs'). rewrite Hl'. simpl.
      eexists. split; [done|]. constructor; [done|].
      rewrite (insort_row_Permutation _ _ _ _ Hl'). constructor; [|done].
      unfold ordered_by. rewrite (cell_lookup _ _ _ Hky), (cell_lookup _ _ _ Hkx).
      by apply sorts_before_key_le.
    + eexists. split; [done|].
      assert (ordered_by c x y) as Hxy.
      { unfold ordered_by, key_le.
        by rewrite (cell_lookup _ _ _ Hky), (cell_lookup _ _ _ Hkx). }
      constructor; [by constructor|]. constructor; [done|].
      rewrite Forall_forall in Hy, Hl |- *. intros z Hz.
      destruct (Hl z Hz) as (kz & Hkz & Hnz). specialize (Hy z Hz).
      unfold ordered_by in *.
      rewrite (cell_lookup _ _ _ Hky), (cell_lookup _ _ _ Hkx),
        (cell_lookup _ _ _ Hkz) in *.
      by apply (key_le_trans kx ky kz).
Qed.

Lemma sort_rows_sorted c l :
  Forall (has_key c) l →
  ∃ l', sort_rows c l = Ok l' ∧ StronglySorted (ordered_by c) l'.
Proof.
  induction 1 as [|x l Hx Hl (l' & Hl' & Hs)]; simpl.
  - eexists. split; [done|]. constructor.
  - rewrite Hl'. simpl. apply insort_row_sorted; [done| |done].
    by rewrite (sort_rows_Permutation _ _ _ Hl').
Qed.

Lemma labeled_has_key df c :
  labeled df → c ∈ ["AGO"; "SET"; "OUT"; "NOV"; "Media_Trimestre_Ant"] →
  c ∈ columns df ∧ Forall (has_key c) (rows df).
Proof.
  intros [Hwf Hcols Hrows] Hc.
  assert (c ∈ columns df) as Hcol.
  { repeat (apply elem_of_cons in Hc as [->|Hc]); [set_solver..|].
    by apply not_elem_of_nil in Hc. }
  split; [done|]. unfold wf_frame in Hwf.
  rewrite Forall_forall in Hwf, Hrows |- *. intros r Hr.
  assert (is_Some (r !! c)) as [v Hv] by (apply elem_of_dom; by rewrite (Hwf r Hr)).
  exists v. split; [done|]. specialize (Hrows r Hr).
  destruct (loaded_row_numeric r Hrows) as [Hnov Hmed].
  destruct Hrows as [ago set out media status Ha Hs Ho Havg _ _ _].
  destruct (media_trimestre_args _ _ _ _ Havg) as (Hna & Hns & Hno).
  unfold cell in *.
  repeat (apply elem_of_cons in Hc as [->|Hc]);
    [rewrite Ha in Hv|rewrite Hs in Hv|rewrite Ho in Hv|rewrite Hv in Hnov
    |rewrite Hv in Hmed|by apply not_elem_of_nil in Hc];
    try (injection Hv as <-); done.
Qed.


(** ** The grouped chart and the table (lines 168-214) *)

Lemma mapM_fmap_Ok {A B} (f : A → result B) (g : A → B) (l : list A) :
  Forall (λ a, f a = Ok (g a)) l → mapM f l = Ok (g <$> l).
Proof. intros H. by apply mapM_Ok, Forall2_fmap_r, Forall_Forall2_diag. Qed.

Lemma mapM_fmap_fmap {A A' B} (f : A' → result B) (h : A → A') (g : A → B)
    (l : list A) :
  Forall (λ a, f (h a) = Ok (g a)) l → mapM f (h <$> l) = Ok (g <$> l).
Proof. intros H. by apply mapM_Ok, Forall2_fmap, Forall_Forall2_diag. Qed.

Lemma select_wf df cs :
  wf_frame df → Forall (λ c, c ∈ columns df) cs →
  select df cs
  = Ok {| columns := list_to_set cs;
          rows := (λ r : row, filter (λ kv, kv.1 ∈ cs) r) <$> rows df |}.
Proof.
  intros Hwf Hcs. unfold select.
  replace (filter (λ c, c ∉ columns df) cs) with (@nil string); [done|].
  symmetry. induction Hcs as [|c cs Hc _ IH]; [done|].
  rewrite filter_cons_False; [done | by intros ?].
Qed.

Lemma restricted_lookup (r : row) (cs : list string) c :
  c ∈ cs → filter (λ kv : string * value, kv.1 ∈ cs) r !! c = r !! c.
Proof.
  intros Hc. destruct (r !! c) as [v|] eqn:E.
  - by apply map_lookup_filter_Some.
  - apply map_lookup_filter_None. by left.
Qed.

Lemma barra_Periodo periodo periodo' cidade vendas :
  <["Periodo" := Str periodo']> (barra periodo cidade vendas)
  = barra periodo' cidade vendas.
Proof.
  unfold barra. rewrite insert_insert_ne by done. by rewrite insert_insert_eq.
Qed.

Lemma melt_row_restricted (r : row) (cs : list string) periodo c v :
  "Cidade" ∈ cs → periodo ∈ cs →
  r !! "Cidade" = Some c → r !! periodo = Some v →
  melt_row periodo (filter (λ kv : string * value, kv.1 ∈ cs) r)
  = Ok (barra periodo c v).
Proof.
  intros HC Hp Hc Hv. unfold melt_row, row_get.
  rewrite !restricted_lookup by done. by rewrite Hc, Hv.
Qed.

Lemma comparativo_wf (df : DataFrame) :
  wf_frame df →
  "Cidade" ∈ columns df → "Media_Trimestre_Ant" ∈ columns df → "NOV" ∈ columns df →
  comparativo df
  = Ok {| fig_data := {| columns := {[ "Cidade"; "Periodo"; "Vendas" ]} ∪ {[ "Periodo" ]};
                         rows := barras df |};
          fig_x := "Cidade"; fig_y := "Vendas"; fig_title := None;
          fig_colors := ["#999999"; "#E31A1C"] |}.
Proof.
  intros Hwf HC HM HN. unfold comparativo.
  rewrite select_wf; [|done|by repeat constructor]. simpl.
  assert (∀ c r, c ∈ columns df → r ∈ rows df → r !! c = Some (cell c r)) as Hcell.
  { intros c r Hc Hr. unfold wf_frame in Hwf. rewrite Forall_forall in Hwf.
    assert (is_Some (r !! c)) as [v Hv] by (apply elem_of_dom; by rewrite (Hwf r Hr)).
    unfold cell. by rewrite Hv. }
  unfold melt. cbn [rows].
  rewrite (mapM_fmap_fmap (melt_row "Media_Trimestre_Ant") _
    (λ r, barra "Media_Trimestre_Ant" (cell "Cidade" r) (cell "Media_Trimestre_Ant" r))).
  2:{ apply Forall_forall. intros r Hr.
      apply melt_row_restricted; [set_solver|set_solver|by apply Hcell..]. }
  simpl.
  rewrite (mapM_fmap_fmap (melt_row "NOV") _
    (λ r, barra "NOV" (cell "Cidade" r) (cell "NOV" r))).
  2:{ apply Forall_forall. intros r Hr.
      apply melt_row_restricted; [set_solver|set_solver|by apply Hcell..]. }
  simpl. unfold getitem. cbn [columns rows]. rewrite decide_True by set_solver.
  rewrite (mapM_fmap_Ok (λ r, row_get r "Periodo") (cell "Periodo")).
  2:{ apply Forall_app. split; apply Forall_fmap, Forall_forall; intros r _; done. }
  simpl. do 2 f_equal. unfold setitem. cbn [columns rows]. f_equal.
  unfold series_map, barras.
  rewrite <- list_fmap_compose, zip_with_fmap_r, zip_with_diag.
  rewrite fmap_app, <- !list_fmap_compose. f_equal; apply list_fmap_ext; intros _ r _;
    simpl; by rewrite barra_Periodo.
Qed.

(** X15. On a frame with the columns [Cidade], [Media_Trimestre_Ant] and
    [NOV] the grouped chart is always drawn, from twice as many bars as there
    are records: first one bar per record with its city and its baseline,
    named "Média 3 Meses", then one bar per record with its city and its
    November amount, named "Novembro", both in the order of the frame. *)
Theorem comparativo_bars (df : DataFrame) :
  wf_frame df →
  "Cidade" ∈ columns df → "Media_Trimestre_Ant" ∈ columns df → "NOV" ∈ columns df →
  ∃ fig,
    comparativo df = Ok fig ∧
    length (rows (fig_data fig)) = (2 * length (rows df))%nat ∧
    rows (fig_data fig)
    = (((λ r, barra "Média 3 Meses" (cell "Cidade" r) (cell "Media_Trimestre_Ant" r))
          <$> rows df)
       ++ ((λ r, barra "Novembro" (cell "Cidade" r) (cell "NOV" r)) <$> rows df))%list.
Proof.
  intros Hwf HC HM HN. rewrite (comparativo_wf df Hwf HC HM HN).
  eexists. split; [done|]. cbn [fig_data rows].
  split; [|done]. unfold barras. rewrite length_app, !length_fmap. lia.
Qed.

Lemma comparativo_bars_witness :
  wf_frame so_recife ∧
  ∃ fig,
    comparativo so_recife = Ok fig ∧
    length (rows (fig_data fig)) = 2%nat ∧
    rows (fig_data fig)
    = [barra "Média 3 Meses" (Str "Recife") (Num ((100 + 100 + 100) / 3));
       barra "Novembro" (Str "Recife") (Num 132)].
Proof.
  assert (wf_frame so_recife) as Hwf.
  { repeat constructor. }
  split; [exact Hwf|].
  destruct (comparativo_bars so_recife Hwf) as (fig & Hfig & Hlen & Hrows);
    [by vm_compute..|].
  exists fig. split; [exact Hfig|]. split; [exact Hlen|].
  rewrite Hrows. reflexivity.
Defined.

Lemma plot_bar_Ok df col_val cor titulo :
  labeled df → col_val ∈ ["AGO"; "SET"; "OUT"; "NOV"; "Media_Trimestre_Ant"] →
  ∃ fig, plot_bar df col_val cor titulo = Ok fig.
Proof.
  intros Hl Hc. destruct (labeled_has_key df col_val Hl Hc) as [Hcol Hkeys].
  destruct (sort_rows_sorted col_val (rows df) Hkeys) as (l & Hsort & _).
  unfold plot_bar, sort_values. rewrite decide_True by done. rewrite Hsort. simpl.
  by eexists.
Qed.

Lemma tabela_wf df :
  wf_frame df →
  {[ "Cidade"; "Status"; "AGO"; "SET"; "OUT"; "Media_Trimestre_Ant"; "NOV" ]}
    ⊆ columns df →
  tabela df
  = Ok (st_dataframe
          {| columns := list_to_set ["Cidade"; "Status"; "AGO"; "SET"; "OUT";
                                     "Media_Trimestre_Ant"; "NOV"];
             rows := (λ r : row,
                        filter (λ kv, kv.1 ∈ ["Cidade"; "Status"; "AGO"; "SET"; "OUT";
                                              "Media_Trimestre_Ant"; "NOV"]) r)
                     <$> rows df |}
          ((λ r, color_status (cell "Status" r)) <$> rows df)).
Proof.
  intros Hwf Hcols. unfold tabela.
  rewrite select_wf; [|done|repeat (constructor; [set_solver|]); constructor]. simpl.
  unfold getitem. cbn [columns rows]. rewrite decide_True by set_solver.
  rewrite (mapM_fmap_fmap (λ r, row_get r "Status") _ (cell "Status")).
  2:{ eapply Forall_impl; [exact Hwf|]. intros r Hr; simpl.
      assert (is_Some (r !! "Status")) as [v Hv].
      { apply elem_of_dom. rewrite Hr. set_solver. }
      unfold row_get, cell. rewrite restricted_lookup by set_solver. by rewrite Hv. }
  simpl. by rewrite <- list_fmap_compose.
Qed.

Lemma color_status_label l :
  color_status (Str (label_name l)) = "color: " ++ label_color l ++ "; font-weight: bold;".
Proof. by destruct l. Qed.






(** ** The gate over a whole session (lines 17-30) *)

Lemma script_denied sec w ss :
  logado ss ≠ Some true →
  logado (script sec w ss).1 = Some false ∧ (script sec w ss).2 = login_page.
Proof.
  intros Hss. destruct (script_gate sec w ss) as [[Ht _]|?]; [|done].
  exfalso. apply Hss. unfold script, init_logado in Ht. cbn [fst] in Ht.
  destruct (logado ss) as [[]|] eqn:E; simpl in Ht; congruence.
Qed.

Lemma interact_denied sec ss ev :
  logado ss ≠ Some true → (∀ w, ev ≠ SenhaInput (SENHA_ACESSO sec) w) →
  logado (interact sec ss ev).1 = Some false ∧
  (interact sec ss ev).2
  = mkPage ((match ev with
             | Rerun _ => []
             | SenhaInput _ _ => [st_error "Senha incorreta." None]
             end) ++ written login_page) Stopped.
Proof.
  intros Hss Hev. destruct ev as [w|senha w]; cbn [interact].
  - destruct (script_denied sec w ss Hss) as [Hf ->]. by split.
  - assert (senha ≠ SENHA_ACESSO sec) as Hne by (intros ->; by apply (Hev w)).
    unfold verificar_senha. cbn [senha_input].
    rewrite (proj2 (String.eqb_neq _ _) Hne). cbn [fst snd].
    destruct (script_denied sec w (mkSession (logado ss) senha) Hss) as [Hf ->].
    by split.
Qed.

Lemma interact_granted sec ss w :
  logado (interact sec ss (SenhaInput (SENHA_ACESSO sec) w)).1 = Some true.
Proof.
  cbn [interact]. unfold verificar_senha. cbn [senha_input].
  rewrite String.eqb_refl. cbn [fst]. by apply script_keeps.
Qed.

(** X18. Over any sequence of reruns and password entries, a session that is
    not logged in becomes logged in exactly when one of the entries is the
    secret password. *)
Theorem access_iff_password (sec : Secrets) (ss : SessionState) (evs : list event) :
  logado ss ≠ Some true →
  logado (interactions sec ss evs) = Some true
  ↔ Exists (λ ev, ∃ w, ev = SenhaInput (SENHA_ACESSO sec) w) evs.
Proof.
  unfold interactions. revert ss. induction evs as [|ev evs IH]; intros ss Hss; simpl.
  - split; [done|]. by intros ?%Exists_nil.
  - rewrite Exists_cons.
    destruct (decide (∃ w, ev = SenhaInput (SENHA_ACESSO sec) w)) as [[w ->]|Hno].
    + split; [intros _; left; by exists w|intros _].
      apply (interactions_keep sec evs), interact_granted.
    + destruct (interact_denied sec ss ev Hss) as [Hf _].
      { intros w ->. apply Hno. by exists w. }
      rewrite IH by (rewrite Hf; done). split; [by right|]. by intros [?|?].
Qed.

Lemma access_iff_password_witness :
  logado new_session ≠ Some true ∧
  logado (interactions exemplo new_session tentativas) = Some true ∧
  logado (interactions exemplo new_session (take 2 tentativas)) ≠ Some true.
Proof.
  assert (logado new_session ≠ Some true) as Hnew by done.
  split; [exact Hnew|]. split.
  - apply (access_iff_password exemplo new_session tentativas Hnew).
    do 2 apply Exists_cons_tl. apply Exists_cons_hd. by eexists.
  - intros H. apply (access_iff_password exemplo new_session _ Hnew) in H.
    apply Exists_cons in H as [[w [=]]|H].
    apply Exists_cons in H as [[w [=]]|H]. by apply Exists_nil in H.
Defined.

(** X19. While the session is not logged in, a run that is not an entry of
    the secret password ends at [st.stop()] on the login page, after the
    message "Senha incorreta." when a wrong password was entered: the page
    holds no metric, chart or table, and whether the secrets hold a dataset
    plays no part. *)
Theorem denied_run_is_the_login_page (sec : Secrets) (ss : SessionState) (ev : event) :
  logado ss ≠ Some true → (∀ w, ev ≠ SenhaInput (SENHA_ACESSO sec) w) →
  logado (interact sec ss ev).1 = Some false ∧
  (interact sec ss ev).2
  = mkPage ((match ev with
             | Rerun _ => []
             | SenhaInput _ _ => [st_error "Senha incorreta." None]
             end)
            ++ [st_title "🔒 Acesso Restrito - Print Mais";
                st_markdown "Este painel contém dados estratégicos.";
                st_text_input "Digite a senha de acesso:"])
           Stopped ∧
  Forall (λ u, ¬ is_view u) (written (interact sec ss ev).2).
Proof.
  intros Hss Hev. destruct (interact_denied sec ss ev Hss Hev) as [Hf Hp].
  split; [done|]. split; [exact Hp|]. rewrite Hp. cbn [written].
  destruct ev; simpl; repeat (apply Forall_cons; split; [exact id|]);
    apply Forall_nil_2.
Qed.

Lemma denied_run_is_the_login_page_witness :
  logado new_session ≠ Some true ∧
  (∀ w, SenhaInput "errada" (mkWidgets None None) ≠ SenhaInput (SENHA_ACESSO exemplo) w) ∧
  (interact exemplo new_session (SenhaInput "errada" (mkWidgets None None))).2
  = mkPage [st_error "Senha incorreta." None;
            st_title "🔒 Acesso Restrito - Print Mais";
            st_markdown "Este painel contém dados estratégicos.";
            st_text_input "Digite a senha de acesso:"]
           Stopped.
Proof.
  assert (logado new_session ≠ Some true) as Hnew by done.
  assert (∀ w, SenhaInput "errada" (mkWidgets None None)
               ≠ SenhaInput (SENHA_ACESSO exemplo) w) as Hev by done.
  split; [exact Hnew|]. split; [exact Hev|].
  apply (denied_run_is_the_login_page exemplo new_session _ Hnew Hev).
Defined.

(** ** Amounts as text (lines 125 and 128) *)

Lemma separadores_cons c s :
  separadores (String c s)
  = String (if Ascii.eqb c "X"%char then "."%char else trocar c) (separadores s).
Proof.
  unfold separadores, trocar. cbn [str_replace]. f_equal.
  destruct (Ascii.eqb_spec c ","%char) as [->|H1]; [done|].
  destruct (Ascii.eqb_spec c "."%char) as [->|H2]; [done|].
  done.
Qed.

Lemma trocar_trocar c : trocar (trocar c) = c.
Proof.
  unfold trocar.
  destruct (Ascii.eqb_spec c ","%char) as [->|H1]; [done|].
  destruct (Ascii.eqb_spec c "."%char) as [->|H2]; [done|].
  by rewrite (proj2 (Ascii.eqb_neq _ _) H1), (proj2 (Ascii.eqb_neq _ _) H2).
Qed.

Lemma trocar_X c : c ≠ "X"%char → trocar c ≠ "X"%char.
Proof.
  unfold trocar. intros Hc.
  destruct (Ascii.eqb_spec c ","%char); [done|]. by destruct (Ascii.eqb_spec c "."%char).
Qed.

(** X20. On a text without the letter X, the three replacements that turn an
    amount into the Brazilian notation exchange every comma with a full stop
    and leave every other character as it is: the letter X used in between
    does not remain.  The text keeps its length, and applying the
    replacements once more gives the text back. *)
Theorem separadores_swaps (s : string) :
  (∀ n, String.get n s ≠ Some "X"%char) →
  String.length (separadores s) = String.length s ∧
  (∀ n, String.get n (separadores s) = trocar <$> String.get n s) ∧
  separadores (separadores s) = s.
Proof.
  induction s as [|c s IH]; intros HX; [done|].
  assert (c ≠ "X"%char) as Hc by (intros ->; by apply (HX 0%nat)).
  destruct IH as (Hlen & Hget & Hinv); [intros n; apply (HX (S n))|].
  rewrite separadores_cons, (proj2 (Ascii.eqb_neq _ _) Hc).
  split; [simpl; by rewrite Hlen|]. split.
  - intros [|n]; [done|]. simpl. apply Hget.
  - rewrite separadores_cons, (proj2 (Ascii.eqb_neq _ _) (trocar_X c Hc)).
    by rewrite trocar_trocar, Hinv.
Qed.

Lemma separadores_swaps_witness :
  (∀ n, String.get n "R$ 1,234,567.80" ≠ Some "X"%char) ∧
  separadores "R$ 1,234,567.80" = "R$ 1.234.567,80" ∧
  separadores (separadores "R$ 1,234,567.80") = "R$ 1,234,567.80".
Proof.
  assert (∀ n, String.get n "R$ 1,234,567.80" ≠ Some "X"%char) as HX.
  { intros n. do 16 (destruct n as [|n]; [done|]). done. }
  split; [exact HX|]. split; [reflexivity|].
  apply (separadores_swaps "R$ 1,234,567.80" HX).
Defined.
